(** * Federated task configurators: EMNIST and Shakespeare

    A shallow embedding of [optimization/emnist/federated_emnist.py] and
    [optimization/shakespeare/federated_shakespeare.py].

    Both modules are glue: they call dataset loaders, model builders and the
    iterative-process builder carried by the [TaskSpec], and return a
    [RunnerSpec].  The embedding keeps that shape.  Every call that leaves the
    two modules is an element of the type [call]; an environment [extern]
    answers it, possibly with an exception, possibly changing the outside
    world.  A configurator is a computation in the monad [M], which threads
    the world, propagates exceptions and records the calls in the order they
    are made.  The functions the modules build and hand over (the [partial]
    objects, the lambdas and the inner [def]s) are first-order closure
    records, so that the recorded calls show which function was passed. *)

From Stdlib Require Import ZArith List Bool Ascii Lia DecimalString.
From Stdlib Require Import Floats.SpecFloat.
From stdpp Require Import base option list strings gmap.
Import ListNotations.

Open Scope string_scope.
Open Scope list_scope.
Open Scope Z_scope.

(* ===================================================================== *)
(** * TensorFlow tensors, as far as [client_weight_fn] uses them *)
(* ===================================================================== *)

Module tf.

(** A dense tensor: its shape and its elements in row-major order.  Only
    the two element types of the source occur: [tf.int64] and
    [tf.float32].  A float32 element is an IEEE 754 binary32 datum
    ([prec = 24], [emax = 128] in [SpecFloat]). *)
Inductive Tensor :=
  | Int64 (shape : list nat) (data : list Z)
  | Float32 (shape : list nat) (data : list spec_float).

Definition prec : Z := 24.
Definition emax : Z := 128.

(** Conversion of a 64-bit integer to binary32, rounding to nearest, ties
    to even. *)
Definition int64_to_float32 (z : Z) : spec_float :=
  binary_normalize prec emax z 0 false.

(** [tf.squeeze(t)]: removes every dimension of size 1. *)
Definition squeeze (t : Tensor) : Tensor :=
  let keep := filter (fun d => d <> 1%nat) in
  match t with
  | Int64 s xs => Int64 (keep s) xs
  | Float32 s xs => Float32 (keep s) xs
  end.

(** [tf.cast(t, tf.float32)]. *)
Definition cast_float32 (t : Tensor) : Tensor :=
  match t with
  | Int64 s xs => Float32 s (map int64_to_float32 xs)
  | Float32 s xs => Float32 s xs
  end.

(** [denotes f n]: the binary32 datum [f] is finite and its value is the
    integer [n]. *)
Definition denotes (f : spec_float) (n : Z) : bool :=
  match f with
  | S754_zero _ => n =? 0
  | S754_finite s m e =>
      if 0 <=? e then cond_Zopp s (Z.pos m) * 2 ^ e =? n
      else cond_Zopp s (Z.pos m) =? n * 2 ^ (- e)
  | S754_infinity _ | S754_nan => false
  end.

End tf.

(* ===================================================================== *)
(** * Python values, closures and the calls to collaborators *)
(* ===================================================================== *)

(** The types the embedding is parametric in: the objects that the
    collaborators hand back (datasets, models, processes, callables), the
    state of the world outside the two modules, and the exceptions that
    collaborators raise. *)
Class Runtime := {
  Obj : Type;
  World : Type;
  ExtErr : Type;
}.

Section Values.
Context `{Runtime}.

(** A Python value held in a variable of the source.  [Lambda_validation_fn
    test_fn] is the closure of
    [lambda model_weights, round_num: test_fn(model_weights)], which both
    modules build; it captures the variable [test_fn]. *)
Inductive value :=
  | VNone
  | VInt (z : Z)
  | VObj (o : Obj)
  | Lambda_validation_fn (test_fn : value).

(** [model_builder]: the [functools.partial] objects of the two modules. *)
Inductive model_builder_t :=
  | partial_create_conv_dropout_model (only_digits : bool)
  | partial_create_two_hidden_layer_model (only_digits : bool)
  | partial_create_shakespeare_model (sequence_length : Z).

(** [loss_builder]: the class itself (EMNIST) or a [partial] of it
    (Shakespeare). *)
Inductive loss_builder_t :=
  | SparseCategoricalCrossentropy
  | partial_SparseCategoricalCrossentropy (from_logits : bool).

(** [metrics_builder]: the lambda of the EMNIST module, or the module-level
    function of the Shakespeare module. *)
Inductive metrics_builder_t :=
  | emnist_metrics_lambda
  | shakespeare_metrics_builder.

(** The closure of the inner function [tff_model_fn] with the four
    variables it captures. *)
Record tff_model_fn_t := Tff_model_fn {
  captured_model_builder : model_builder_t;
  captured_input_spec : value;
  captured_loss_builder : loss_builder_t;
  captured_metrics_builder : metrics_builder_t;
}.

(** The inner function [client_weight_fn] of the Shakespeare module; it
    captures nothing. *)
Inductive client_weight_fn_t :=
  | shakespeare_client_weight_fn.

(** The calls that leave the two modules, with their arguments. *)
Inductive call :=
  (* utils.datasets.emnist_dataset *)
  | emnist_dataset_get_federated_datasets
      (train_client_batch_size train_client_epochs_per_round : Z)
      (only_digits : bool)
  | emnist_dataset_get_centralized_datasets (only_digits : bool)
  (* utils.datasets.shakespeare_dataset *)
  | shakespeare_dataset_get_federated_datasets
      (train_client_batch_size train_client_epochs_per_round
       sequence_length : Z)
  | shakespeare_dataset_get_centralized_datasets (sequence_length : Z)
  | shakespeare_dataset_get_special_tokens
  (* attributes and methods of the dataset objects *)
  | ClientData_client_ids (self : value)
  | ClientData_create_tf_dataset_for_client (self : value) (client_id : string)
  | ClientData_element_type_structure (self : value)
  | Dataset_element_spec (self : value)
  (* utils.models *)
  | emnist_models_create_conv_dropout_model (only_digits : bool)
  | emnist_models_create_two_hidden_layer_model (only_digits : bool)
  | shakespeare_models_create_recurrent_model (vocab_size sequence_length : Z)
  (* tf.keras *)
  | keras_losses_SparseCategoricalCrossentropy (from_logits : option bool)
  | keras_metrics_SparseCategoricalAccuracy
  (* optimization.shared.keras_metrics *)
  | keras_metrics_NumBatchesCounter
  | keras_metrics_NumExamplesCounter
  | keras_metrics_NumTokensCounter (masked_tokens : list Z)
  | keras_metrics_MaskedCategoricalAccuracy (masked_tokens : list Z)
  (* tff.learning *)
  | tff_learning_from_keras_model
      (keras_model input_spec loss : value) (metrics : list value)
  (* utils.training_utils *)
  | training_utils_build_client_datasets_fn
      (dataset : value) (clients_per_round random_seed : Z)
  | training_utils_build_centralized_evaluate_fn
      (eval_dataset : value) (model_builder : model_builder_t)
      (loss_builder : loss_builder_t) (metrics_builder : metrics_builder_t)
  (* builder(model_fn) or builder(model_fn, client_weight_fn=...), for the
     builder of a task spec *)
  | call_iterative_process_builder
      (builder : Obj) (model_fn : tff_model_fn_t)
      (client_weight_fn : option client_weight_fn_t)
  (* a call of a callable object with positional arguments *)
  | call_object (f : Obj) (args : list value).

(** What a call returns when it returns. *)
Definition ret (c : call) : Type :=
  match c with
  | emnist_dataset_get_federated_datasets _ _ _
  | emnist_dataset_get_centralized_datasets _
  | shakespeare_dataset_get_federated_datasets _ _ _
  | shakespeare_dataset_get_centralized_datasets _ => (value * value)%type
  | shakespeare_dataset_get_special_tokens => (Z * Z * Z * Z)%type
  | ClientData_client_ids _ => list string
  | _ => value
  end.

(** Python exceptions.  The first four are raised inside the two modules
    (by a [raise] statement or by the interpreter); [External] wraps
    whatever a collaborator raised. *)
Inductive exn :=
  | ValueError (msg : string)
  | IndexError (msg : string)
  | KeyError (key : string)
  | TypeError (msg : string)
  | External (e : ExtErr).

Inductive result (A : Type) :=
  | Ok (a : A)
  | Raise (e : exn).
#[global] Arguments Ok {A} a.
#[global] Arguments Raise {A} e.

(** The environment: how the collaborators answer, and the constant
    [shakespeare_dataset.CHAR_VOCAB], a list of one-character strings. *)
Class Collaborators := {
  extern : forall c : call, World -> (ExtErr + ret c) * World;
  CHAR_VOCAB : list string;
}.

(** Computations: from the world before, the result, the world after and
    the calls made, oldest first. *)
Definition M (A : Type) : Type := World -> result A * World * list call.

Definition pure {A} (a : A) : M A := fun w => (Ok a, w, []).

Definition raise {A} (e : exn) : M A := fun w => (Raise e, w, []).

Definition bind {A B} (m : M A) (k : A -> M B) : M B :=
  fun w =>
    match m w with
    | (Ok a, w1, cs1) =>
        let '(r, w2, cs2) := k a w1 in (r, w2, cs1 ++ cs2)
    | (Raise e, w1, cs1) => (Raise e, w1, cs1)
    end.

(** Performing a call: ask the environment and record the call. *)
Definition perform `{Collaborators} (c : call) : M (ret c) :=
  fun w =>
    match extern c w with
    | (inr a, w') => (Ok a, w', [c])
    | (inl e, w') => (Raise (External e), w', [c])
    end.

Definition outcome {A} (x : result A * World * list call) : result A :=
  x.1.1.
Definition calls {A} (x : result A * World * list call) : list call :=
  x.2.

End Values.

Declare Scope py_scope.
Delimit Scope py_scope with py.
Notation "'let!' x ':=' m 'in' k" := (bind m (fun x => k))
  (at level 10, x name, m at level 100, k at level 200) : py_scope.
Notation "'let!' ' pat ':=' m 'in' k" :=
  (bind m (fun x => match x with pat => k end))
  (at level 10, pat pattern, m at level 100, k at level 200) : py_scope.
Open Scope py_scope.

(* ===================================================================== *)
(** * Python string conversions used by the error message *)
(* ===================================================================== *)

Module pystr.

Definition quote : Ascii.ascii := "'"%char.
Definition dquote : Ascii.ascii := Ascii.ascii_of_nat 34.
Definition backslash : Ascii.ascii := Ascii.ascii_of_nat 92.

Definition hex_digit (n : nat) : Ascii.ascii :=
  if (n <? 10)%nat then Ascii.ascii_of_nat (48 + n)
  else Ascii.ascii_of_nat (87 + n).

Fixpoint contains (c : Ascii.ascii) (s : string) : bool :=
  match s with
  | EmptyString => false
  | String d s' => Ascii.eqb c d || contains c s'
  end.

(** One character of [repr(s)] inside the quotes [q]. *)
Definition repr_char (q c : Ascii.ascii) : string :=
  let n := Ascii.nat_of_ascii c in
  if Ascii.eqb c backslash then String backslash (String backslash "")
  else if Ascii.eqb c q then String backslash (String q "")
  else if (n =? 9)%nat then String backslash "t"
  else if (n =? 10)%nat then String backslash "n"
  else if (n =? 13)%nat then String backslash "r"
  else if (n <? 32)%nat || (n =? 127)%nat then
    String backslash
      (String "x" (String (hex_digit (n / 16)) (String (hex_digit (n mod 16)) "")))
  else String c "".

Fixpoint repr_body (q : Ascii.ascii) (s : string) : string :=
  match s with
  | EmptyString => ""
  | String c s' => repr_char q c +:+ repr_body q s'
  end.

(** [repr(s)] for a string: single quotes, unless the string has a single
    quote and no double quote.  Bytes from 128 on are printed as they
    are (the bytes of a printable non-ASCII character). *)
Definition repr (s : string) : string :=
  let q := if contains quote s && negb (contains dquote s)
           then dquote else quote in
  String q (repr_body q s +:+ String q "").

Fixpoint join (sep : string) (l : list string) : string :=
  match l with
  | [] => ""
  | [x] => x
  | x :: l' => x +:+ sep +:+ join sep l'
  end.

(** [str(l)] for a list of strings. *)
Definition str_list (l : list string) : string :=
  "[" +:+ join ", " (map repr l) +:+ "]".

(** [needle in haystack], for strings. *)
Fixpoint is_infix (needle haystack : string) : bool :=
  String.prefix needle haystack ||
  match haystack with
  | EmptyString => false
  | String _ rest => is_infix needle rest
  end.

End pystr.

(* ===================================================================== *)
(** * optimization.shared.training_specs *)
(* ===================================================================== *)

Module training_specs.
Section Specs.
Context `{Runtime}.

(** Modelled from the spec: the class [TaskSpec] of
    [optimization/shared/training_specs.py], which is not among the
    sources.  The spec lists its fields: batch size, epochs per round,
    clients per round, a random seed and the iterative-process-builder
    function, a callable object. *)
Record TaskSpec := {
  client_batch_size : Z;
  client_epochs_per_round : Z;
  clients_per_round : Z;
  client_datasets_random_seed : Z;
  iterative_process_builder : Obj;
}.

(** Modelled from the spec: the class [RunnerSpec] of the same file, an
    output bundle with four fields. *)
Record RunnerSpec := {
  iterative_process : value;
  client_datasets_fn : value;
  validation_fn : value;
  test_fn : value;
}.

End Specs.
End training_specs.
Import training_specs.

(* ===================================================================== *)
(** * What the Python interpreter does at a call or a subscript *)
(* ===================================================================== *)

Section Interpreter.
Context `{Runtime} `{!Collaborators}.

(** [l[0]] for a list. *)
Definition getitem_0 {A} (l : list A) : M A :=
  match l with
  | x :: _ => pure x
  | [] => raise (IndexError "list index out of range")
  end.

(** The message of the [TypeError] that a call of
    [lambda model_weights, round_num: ...] with [given] positional
    arguments raises, for [given] other than two.  The function is printed
    as [<lambda>()]; from Python 3.10 on its qualified name is printed
    instead. *)
Definition lambda_arity_error (given : nat) : string :=
  match given with
  | 0%nat =>
      "<lambda>() missing 2 required positional arguments: "
        +:+ "'model_weights' and 'round_num'"
  | 1%nat => "<lambda>() missing 1 required positional argument: 'round_num'"
  | _ =>
      "<lambda>() takes 2 positional arguments but "
        +:+ NilEmpty.string_of_uint (Nat.to_uint given) +:+ " were given"
  end.

(** [f(args)] with positional arguments, for a value [f].  The lambda
    [lambda model_weights, round_num: test_fn(model_weights)] takes two
    arguments and calls the captured [test_fn] on the first. *)
Fixpoint call_value (f : value) (args : list value) : M value :=
  match f with
  | VObj o => perform (call_object o args)
  | Lambda_validation_fn test_fn =>
      match args with
      | [model_weights; round_num] => call_value test_fn [model_weights]
      | _ => raise (TypeError (lambda_arity_error (length args)))
      end
  | VNone => raise (TypeError "'NoneType' object is not callable")
  | VInt _ => raise (TypeError "'int' object is not callable")
  end.

End Interpreter.

(* ===================================================================== *)
(** * optimization/emnist/federated_emnist.py *)
(* ===================================================================== *)

Module federated_emnist.
Section Emnist.
Context `{Runtime} `{!Collaborators}.

Definition EMNIST_MODELS : list string := ["cnn"; "2nn"].

(** The message of the [ValueError]:
    ['Cannot handle model flag [{!s}], must be one of {!s}.'.format(model, EMNIST_MODELS)]. *)
Definition error_message (model : string) : string :=
  "Cannot handle model flag [" +:+ model +:+ "], must be one of "
    +:+ pystr.str_list EMNIST_MODELS +:+ ".".

(** [configure_training(task_spec, model='cnn')]; [None] for [model_arg]
    is a call that leaves the argument out. *)
Definition configure_training (task_spec : TaskSpec)
    (model_arg : option string) : M RunnerSpec :=
  let model := default "cnn" model_arg in
  let! '(emnist_train, _) :=
    perform (emnist_dataset_get_federated_datasets
               (client_batch_size task_spec)
               (client_epochs_per_round task_spec)
               false) in
  let! '(_, emnist_test) :=
    perform (emnist_dataset_get_centralized_datasets false) in
  let! client_ids := perform (ClientData_client_ids emnist_train) in
  let! client_id := getitem_0 client_ids in
  let! client_dataset :=
    perform (ClientData_create_tf_dataset_for_client emnist_train client_id) in
  let! input_spec := perform (Dataset_element_spec client_dataset) in
  let! model_builder :=
    (if String.eqb model "cnn" then
       pure (partial_create_conv_dropout_model false)
     else if String.eqb model "2nn" then
       pure (partial_create_two_hidden_layer_model false)
     else
       raise (ValueError (error_message model))) in
  let loss_builder := SparseCategoricalCrossentropy in
  let metrics_builder := emnist_metrics_lambda in
  let tff_model_fn :=
    Tff_model_fn model_builder input_spec loss_builder metrics_builder in
  let! training_process :=
    perform (call_iterative_process_builder
               (iterative_process_builder task_spec) tff_model_fn None) in
  let! client_datasets_fn :=
    perform (training_utils_build_client_datasets_fn
               emnist_train
               (clients_per_round task_spec)
               (client_datasets_random_seed task_spec)) in
  let! test_fn :=
    perform (training_utils_build_centralized_evaluate_fn
               emnist_test model_builder loss_builder metrics_builder) in
  let validation_fn := Lambda_validation_fn test_fn in
  pure {| iterative_process := training_process;
          client_datasets_fn := client_datasets_fn;
          validation_fn := validation_fn;
          test_fn := test_fn |}.

End Emnist.
End federated_emnist.

(* ===================================================================== *)
(** * optimization/shakespeare/federated_shakespeare.py *)
(* ===================================================================== *)

Module federated_shakespeare.
Section Shakespeare.
Context `{Runtime} `{!Collaborators}.

(** [VOCAB_SIZE = len(shakespeare_dataset.CHAR_VOCAB) + 4]. *)
Definition VOCAB_SIZE : Z := Z.of_nat (length CHAR_VOCAB) + 4.

Definition create_shakespeare_model (sequence_length : Z) : M value :=
  perform (shakespeare_models_create_recurrent_model VOCAB_SIZE sequence_length).

Definition metrics_builder : M (list value) :=
  let! '(pad_token, _, _, _) := perform shakespeare_dataset_get_special_tokens in
  let! m1 := perform keras_metrics_NumBatchesCounter in
  let! m2 := perform keras_metrics_NumExamplesCounter in
  let! m3 := perform (keras_metrics_NumTokensCounter [pad_token]) in
  let! m4 := perform (keras_metrics_MaskedCategoricalAccuracy [pad_token]) in
  pure [m1; m2; m3; m4].

(** The inner function [client_weight_fn]:
    [tf.cast(tf.squeeze(local_outputs['num_tokens']), tf.float32)]. *)
Definition client_weight_fn (local_outputs : gmap string tf.Tensor)
    : result tf.Tensor :=
  match local_outputs !! "num_tokens" with
  | Some num_tokens => Ok (tf.cast_float32 (tf.squeeze num_tokens))
  | None => Raise (KeyError "num_tokens")
  end.

(** [configure_training(task_spec, sequence_length=80)]. *)
Definition configure_training (task_spec : TaskSpec)
    (sequence_length_arg : option Z) : M RunnerSpec :=
  let sequence_length := default 80 sequence_length_arg in
  let! '(shakespeare_train, _) :=
    perform (shakespeare_dataset_get_federated_datasets
               (client_batch_size task_spec)
               (client_epochs_per_round task_spec)
               sequence_length) in
  let! '(_, shakespeare_test) :=
    perform (shakespeare_dataset_get_centralized_datasets sequence_length) in
  let model_builder := partial_create_shakespeare_model sequence_length in
  let loss_builder := partial_SparseCategoricalCrossentropy true in
  let! input_spec :=
    perform (ClientData_element_type_structure shakespeare_train) in
  let tff_model_fn :=
    Tff_model_fn model_builder input_spec loss_builder
      shakespeare_metrics_builder in
  let! training_process :=
    perform (call_iterative_process_builder
               (iterative_process_builder task_spec) tff_model_fn
               (Some shakespeare_client_weight_fn)) in
  let! client_datasets_fn :=
    perform (training_utils_build_client_datasets_fn
               shakespeare_train
               (clients_per_round task_spec)
               (client_datasets_random_seed task_spec)) in
  let! test_fn :=
    perform (training_utils_build_centralized_evaluate_fn
               shakespeare_test model_builder loss_builder
               shakespeare_metrics_builder) in
  let validation_fn := Lambda_validation_fn test_fn in
  pure {| iterative_process := training_process;
          client_datasets_fn := client_datasets_fn;
          validation_fn := validation_fn;
          test_fn := test_fn |}.

End Shakespeare.
End federated_shakespeare.

(* ===================================================================== *)
(** * What the closures do when a collaborator calls them *)
(* ===================================================================== *)

Module closures.
Section Closures.
Context `{Runtime} `{!Collaborators}.

(** [model_builder()]: a [functools.partial] object calls its function
    with the stored keyword argument. *)
Definition call_model_builder (f : model_builder_t) : M value :=
  match f with
  | partial_create_conv_dropout_model only_digits =>
      perform (emnist_models_create_conv_dropout_model only_digits)
  | partial_create_two_hidden_layer_model only_digits =>
      perform (emnist_models_create_two_hidden_layer_model only_digits)
  | partial_create_shakespeare_model sequence_length =>
      federated_shakespeare.create_shakespeare_model sequence_length
  end.

(** [loss_builder()]. *)
Definition call_loss_builder (f : loss_builder_t) : M value :=
  match f with
  | SparseCategoricalCrossentropy =>
      perform (keras_losses_SparseCategoricalCrossentropy None)
  | partial_SparseCategoricalCrossentropy from_logits =>
      perform (keras_losses_SparseCategoricalCrossentropy (Some from_logits))
  end.

(** [metrics_builder()]. *)
Definition call_metrics_builder (f : metrics_builder_t) : M (list value) :=
  match f with
  | emnist_metrics_lambda =>
      let! m := perform keras_metrics_SparseCategoricalAccuracy in
      pure [m]
  | shakespeare_metrics_builder => federated_shakespeare.metrics_builder
  end.

(** The body of [tff_model_fn], the same in both modules. *)
Definition tff_model_fn (f : tff_model_fn_t) : M value :=
  let! keras_model := call_model_builder (captured_model_builder f) in
  let! loss := call_loss_builder (captured_loss_builder f) in
  let! metrics := call_metrics_builder (captured_metrics_builder f) in
  perform (tff_learning_from_keras_model
             keras_model (captured_input_spec f) loss metrics).

(** [client_weight_fn(local_outputs)], for the closure handed to the
    process builder. *)
Definition call_client_weight_fn (f : client_weight_fn_t)
    (local_outputs : gmap string tf.Tensor) : result tf.Tensor :=
  match f with
  | shakespeare_client_weight_fn =>
      federated_shakespeare.client_weight_fn local_outputs
  end.

End Closures.
End closures.

(* ===================================================================== *)
(** * optimization.shared.keras_metrics *)
(* ===================================================================== *)

Module masked_accuracy.

(** Modelled from the spec: the class [MaskedCategoricalAccuracy] of
    [optimization/shared/keras_metrics.py], which is not among the sources.
    The spec says that it "excludes padding-token positions from the
    accuracy computation" and that, "given an all-padding target sequence,
    [it] reports zero contributing positions (not a divide-by-zero
    failure)".  The metric counts the positions that contribute and, among
    them, the positions predicted correctly. *)
Record MaskedCategoricalAccuracy := {
  masked_tokens : list Z;
  correct : nat;
  positions : nat;
}.

Definition new (masked : list Z) : MaskedCategoricalAccuracy :=
  {| masked_tokens := masked; correct := 0; positions := 0 |}.

(** A position contributes when its target is not a masked token. *)
Definition contributes (masked : list Z) (y : Z) : bool :=
  negb (existsb (Z.eqb y) masked).

(** Modelled from the spec: one batch, the targets [y_true] and the
    predicted tokens [y_pred], position by position. *)
Definition update_state (m : MaskedCategoricalAccuracy)
    (y_true y_pred : list Z) : MaskedCategoricalAccuracy :=
  let counted := filter (fun p => contributes (masked_tokens m) p.1 = true)
                        (combine y_true y_pred) in
  {| masked_tokens := masked_tokens m;
     correct := correct m + length (filter (fun p => p.1 = p.2) counted);
     positions := positions m + length counted |}.

Inductive ZeroDivisionError := division_by_zero.

(** Modelled from the spec: the accuracy, as a fraction; with no
    contributing position it is zero, not a failure. *)
Definition result (m : MaskedCategoricalAccuracy)
    : ZeroDivisionError + (nat * nat) :=
  match positions m with
  | O => inr (0%nat, 1%nat)
  | S _ => inr (correct m, positions m)
  end.

End masked_accuracy.

(* ===================================================================== *)
(** * A small concrete environment *)
(* ===================================================================== *)

(** Objects are named by strings, the world counts the calls answered, and
    no collaborator fails.  The theorems below are run in it. *)
Module example.

#[export] Instance runtime : Runtime :=
  {| Obj := string; World := nat; ExtErr := string |}.

Definition answer (c : call) : ret c :=
  match c return ret c with
  | emnist_dataset_get_federated_datasets _ _ _ =>
      (VObj "emnist_train", VObj "emnist_validation")
  | emnist_dataset_get_centralized_datasets _ =>
      (VObj "emnist_central_train", VObj "emnist_test")
  | shakespeare_dataset_get_federated_datasets _ _ _ =>
      (VObj "shakespeare_train", VObj "shakespeare_validation")
  | shakespeare_dataset_get_centralized_datasets _ =>
      (VObj "shakespeare_central_train", VObj "shakespeare_test")
  | shakespeare_dataset_get_special_tokens => (0, 4, 5, 6)
  | ClientData_client_ids _ => ["f0000_14"; "f0001_41"]
  | ClientData_create_tf_dataset_for_client _ _ => VObj "client_dataset"
  | ClientData_element_type_structure _ => VObj "element_type_structure"
  | Dataset_element_spec _ => VObj "element_spec"
  | emnist_models_create_conv_dropout_model _ => VObj "conv_dropout_model"
  | emnist_models_create_two_hidden_layer_model _ => VObj "two_hidden_layer_model"
  | shakespeare_models_create_recurrent_model _ _ => VObj "recurrent_model"
  | keras_losses_SparseCategoricalCrossentropy _ => VObj "loss"
  | keras_metrics_SparseCategoricalAccuracy => VObj "accuracy"
  | keras_metrics_NumBatchesCounter => VObj "num_batches"
  | keras_metrics_NumExamplesCounter => VObj "num_examples"
  | keras_metrics_NumTokensCounter _ => VObj "num_tokens"
  | keras_metrics_MaskedCategoricalAccuracy _ => VObj "masked_accuracy"
  | tff_learning_from_keras_model _ _ _ _ => VObj "tff_model"
  | training_utils_build_client_datasets_fn _ _ _ => VObj "client_datasets_fn"
  | training_utils_build_centralized_evaluate_fn _ _ _ _ => VObj "evaluate_fn"
  | call_iterative_process_builder _ _ _ => VObj "iterative_process"
  | call_object _ _ => VObj "metrics"
  end.

#[export] Instance collaborators : Collaborators :=
  {| extern := fun c w => (inr (answer c), S w);
     CHAR_VOCAB := ["a"; "b"; "c"] |}.

Definition task_spec : TaskSpec :=
  {| client_batch_size := 20;
     client_epochs_per_round := 1;
     clients_per_round := 10;
     client_datasets_random_seed := 1;
     iterative_process_builder := "fed_avg_builder" |}.

(** What the EMNIST configurator returns here, with its defaults. *)
Definition emnist_runner_spec : RunnerSpec :=
  {| iterative_process := VObj "iterative_process";
     client_datasets_fn := VObj "client_datasets_fn";
     validation_fn := Lambda_validation_fn (VObj "evaluate_fn");
     test_fn := VObj "evaluate_fn" |}.

(** The outputs of a client that saw 1234 tokens, and of one that saw
    [2 ^ 24 + 1] tokens. *)
Definition local_outputs : gmap string tf.Tensor :=
  {[ "num_tokens" := tf.Int64 [1%nat] [1234] ]}.

Definition local_outputs_large : gmap string tf.Tensor :=
  {[ "num_tokens" := tf.Int64 [1%nat] [16777217] ]}.

(** An environment whose federated dataset has no client. *)
Definition collaborators_without_clients : Collaborators :=
  {| extern := fun c w =>
       (match c return string + ret c with
        | ClientData_client_ids _ => inr []
        | c => inr (answer c)
        end, S w);
     CHAR_VOCAB := ["a"; "b"; "c"] |}.

End example.


(* ===================================================================== *)
(** * Assumptions on environments, and observations on recorded calls *)
(* ===================================================================== *)

Section Observations.
Context `{Runtime} `{!Collaborators}.

(** No collaborator raises. *)
Definition collaborators_return : Prop :=
  forall (c : call) (w : World), exists a w', extern c w = (inr a, w').

(** The federated dataset has a client. *)
Definition has_clients : Prop :=
  forall self w ids w',
    extern (ClientData_client_ids self) w = (inr ids, w') -> ids <> [].

(** The process builder and the two builders of [training_utils] return
    objects, not [None]. *)
Definition builders_return_objects : Prop :=
  (forall b f cw w a w',
      extern (call_iterative_process_builder b f cw) w = (inr a, w') ->
      a <> VNone) /\
  (forall d n s w a w',
      extern (training_utils_build_client_datasets_fn d n s) w = (inr a, w') ->
      a <> VNone) /\
  (forall d mb lb ms w a w',
      extern (training_utils_build_centralized_evaluate_fn d mb lb ms) w
        = (inr a, w') ->
      a <> VNone).

(** Calls that load or construct a dataset. *)
Definition is_dataset_load (c : call) : bool :=
  match c with
  | emnist_dataset_get_federated_datasets _ _ _
  | emnist_dataset_get_centralized_datasets _
  | shakespeare_dataset_get_federated_datasets _ _ _
  | shakespeare_dataset_get_centralized_datasets _
  | ClientData_create_tf_dataset_for_client _ _ => true
  | _ => false
  end.

(** Calls that build a model, and calls that are given a model builder. *)
Definition is_model_build (c : call) : bool :=
  match c with
  | emnist_models_create_conv_dropout_model _
  | emnist_models_create_two_hidden_layer_model _
  | shakespeare_models_create_recurrent_model _ _
  | tff_learning_from_keras_model _ _ _ _
  | call_iterative_process_builder _ _ _
  | training_utils_build_centralized_evaluate_fn _ _ _ _ => true
  | _ => false
  end.

(** The [client_weight_fn] arguments of the calls of the process builder. *)
Definition client_weight_args (cs : list call)
    : list (option client_weight_fn_t) :=
  flat_map (fun c => match c with
                     | call_iterative_process_builder _ _ cw => [cw]
                     | _ => []
                     end) cs.

Definition only_digits_of_builder (f : model_builder_t) : list bool :=
  match f with
  | partial_create_conv_dropout_model only_digits
  | partial_create_two_hidden_layer_model only_digits => [only_digits]
  | partial_create_shakespeare_model _ => []
  end.

(** The [only_digits] flags of a call: its own argument, or the one stored
    in the model builder it is given. *)
Definition only_digits_flags (c : call) : list bool :=
  match c with
  | emnist_dataset_get_federated_datasets _ _ only_digits
  | emnist_dataset_get_centralized_datasets only_digits
  | emnist_models_create_conv_dropout_model only_digits
  | emnist_models_create_two_hidden_layer_model only_digits => [only_digits]
  | call_iterative_process_builder _ f _ =>
      only_digits_of_builder (captured_model_builder f)
  | training_utils_build_centralized_evaluate_fn _ f _ _ =>
      only_digits_of_builder f
  | _ => []
  end.

(** The [masked_tokens] arguments of the masked accuracy metrics built. *)
Definition masked_accuracy_args (cs : list call) : list (list Z) :=
  flat_map (fun c => match c with
                     | keras_metrics_MaskedCategoricalAccuracy masked => [masked]
                     | _ => []
                     end) cs.

(** The calls that come before the test of the model name: the two loads
    and the element spec of the first client. *)
Definition loading_calls (task_spec : TaskSpec) (train : value)
    (client_id : string) (client_dataset : value) : list call :=
  [emnist_dataset_get_federated_datasets
     (client_batch_size task_spec) (client_epochs_per_round task_spec) false;
   emnist_dataset_get_centralized_datasets false;
   ClientData_client_ids train;
   ClientData_create_tf_dataset_for_client train client_id;
   Dataset_element_spec client_dataset].

End Observations.

(* ===================================================================== *)
(** * Further observations on tensors and recorded calls *)
(* ===================================================================== *)

(** The shape and the number of stored elements of a tensor. *)
Definition tensor_shape (t : tf.Tensor) : list nat :=
  match t with tf.Int64 s _ | tf.Float32 s _ => s end.

Definition tensor_length (t : tf.Tensor) : nat :=
  match t with
  | tf.Int64 _ xs => length xs
  | tf.Float32 _ xs => length xs
  end.

Definition is_float32 (t : tf.Tensor) : bool :=
  match t with tf.Float32 _ _ => true | tf.Int64 _ _ => false end.

(** The number of elements a shape announces. *)
Definition shape_size (s : list nat) : nat := fold_right Nat.mul 1%nat s.

(** What [shr_1] keeps through [j] shifts of the mantissa of [M]: the
    mantissa is the quotient, and the round and sticky bits tell where the
    remainder lies in its interval. *)
Definition shr_inv (M j : Z) (mrs : shr_record) : Prop :=
  0 <= shr_m mrs /\
  exists u, 0 <= u < 2 ^ j /\
    2 * (M - shr_m mrs * 2 ^ j) = Z.b2z (shr_r mrs) * 2 ^ j + u /\
    (shr_s mrs = true <-> 0 < u).

Section MoreObservations.
Context `{Runtime} `{!Collaborators}.

(** Calls that construct a model, a loss, a metric or a TFF model. *)
Definition is_construction (c : call) : bool :=
  match c with
  | emnist_models_create_conv_dropout_model _
  | emnist_models_create_two_hidden_layer_model _
  | shakespeare_models_create_recurrent_model _ _
  | keras_losses_SparseCategoricalCrossentropy _
  | keras_metrics_SparseCategoricalAccuracy
  | keras_metrics_NumBatchesCounter
  | keras_metrics_NumExamplesCounter
  | keras_metrics_NumTokensCounter _
  | keras_metrics_MaskedCategoricalAccuracy _
  | tff_learning_from_keras_model _ _ _ _ => true
  | _ => false
  end.

(** The three builders a call is given: the ones captured by the model
    function handed to the process builder, and the ones handed to the
    builder of the evaluation function. *)
Definition builders_handed_over (c : call)
    : list (model_builder_t * loss_builder_t * metrics_builder_t) :=
  match c with
  | call_iterative_process_builder _ f _ =>
      [(captured_model_builder f, captured_loss_builder f,
        captured_metrics_builder f)]
  | training_utils_build_centralized_evaluate_fn _ mb lb ms => [(mb, lb, ms)]
  | _ => []
  end.

Definition sequence_length_of_builder (f : model_builder_t) : list Z :=
  match f with
  | partial_create_shakespeare_model sequence_length => [sequence_length]
  | _ => []
  end.

(** The sequence lengths of a call: its own argument, or the one stored in
    the model builder it is given. *)
Definition sequence_length_args (c : call) : list Z :=
  match c with
  | shakespeare_dataset_get_federated_datasets _ _ sequence_length
  | shakespeare_dataset_get_centralized_datasets sequence_length
  | shakespeare_models_create_recurrent_model _ sequence_length =>
      [sequence_length]
  | call_iterative_process_builder _ f _ =>
      sequence_length_of_builder (captured_model_builder f)
  | training_utils_build_centralized_evaluate_fn _ f _ _ =>
      sequence_length_of_builder f
  | _ => []
  end.

(** The [masked_tokens] arguments of the token counters built. *)
Definition token_counter_args (cs : list call) : list (list Z) :=
  flat_map (fun c => match c with
                     | keras_metrics_NumTokensCounter masked => [masked]
                     | _ => []
                     end) cs.

(** The arguments of the calls of [tff.learning.from_keras_model]. *)
Definition from_keras_model_args (cs : list call)
    : list (value * value * value * list value) :=
  flat_map (fun c => match c with
                     | tff_learning_from_keras_model km spec l ms =>
                         [(km, spec, l, ms)]
                     | _ => []
                     end) cs.

(** The call a model builder makes. *)
Definition model_call (f : model_builder_t) : call :=
  match f with
  | partial_create_conv_dropout_model only_digits =>
      emnist_models_create_conv_dropout_model only_digits
  | partial_create_two_hidden_layer_model only_digits =>
      emnist_models_create_two_hidden_layer_model only_digits
  | partial_create_shakespeare_model sequence_length =>
      shakespeare_models_create_recurrent_model
        federated_shakespeare.VOCAB_SIZE sequence_length
  end.

(** The call a loss builder makes. *)
Definition loss_call (f : loss_builder_t) : call :=
  match f with
  | SparseCategoricalCrossentropy =>
      keras_losses_SparseCategoricalCrossentropy None
  | partial_SparseCategoricalCrossentropy from_logits =>
      keras_losses_SparseCategoricalCrossentropy (Some from_logits)
  end.

(** How many metrics a metrics builder returns. *)
Definition metrics_count (f : metrics_builder_t) : nat :=
  match f with
  | emnist_metrics_lambda => 1
  | shakespeare_metrics_builder => 4
  end.

End MoreObservations.

(** More concrete environments: one whose centralized Shakespeare load
    raises, one whose special tokens cannot be read, and the run of the
    Shakespeare configurator in the environment of [example]. *)
Module example_runs.
Import example.

Definition collaborators_without_test_set : Collaborators :=
  {| extern := fun c w =>
       (match c return string + ret c with
        | shakespeare_dataset_get_centralized_datasets _ =>
            inl "shakespeare test set not found"
        | c => inr (example.answer c)
        end, S w);
     CHAR_VOCAB := ["a"; "b"; "c"] |}.

Definition collaborators_without_special_tokens : Collaborators :=
  {| extern := fun c w =>
       (match c return string + ret c with
        | shakespeare_dataset_get_special_tokens =>
            inl "special tokens not available"
        | c => inr (example.answer c)
        end, S w);
     CHAR_VOCAB := ["a"; "b"; "c"] |}.

Definition shakespeare_runner_spec : RunnerSpec :=
  {| iterative_process := VObj "iterative_process";
     client_datasets_fn := VObj "client_datasets_fn";
     validation_fn := Lambda_validation_fn (VObj "evaluate_fn");
     test_fn := VObj "evaluate_fn" |}.

(** The model function the Shakespeare configurator hands to the process
    builder there, and the metrics it builds. *)
Definition shakespeare_model_fn : tff_model_fn_t :=
  Tff_model_fn (partial_create_shakespeare_model 80)
    (VObj "element_type_structure")
    (partial_SparseCategoricalCrossentropy true)
    shakespeare_metrics_builder.

Definition shakespeare_metrics : list value :=
  [VObj "num_batches"; VObj "num_examples"; VObj "num_tokens";
   VObj "masked_accuracy"].

(** Local outputs with two entries, and a [num_tokens] tensor of shape
    [[1, 1]]. *)
Definition local_outputs_two_entries : gmap string tf.Tensor :=
  <[ "loss" := tf.Float32 [] [S754_zero false] ]> example.local_outputs.

Definition local_outputs_rank_two : gmap string tf.Tensor :=
  {[ "num_tokens" := tf.Int64 [1%nat; 1%nat] [99] ]}.

End example_runs.

(* ===================================================================== *)
(** * Proof steps *)
(* ===================================================================== *)

(** One step of a run: split on the answer of the next call, or on the
    shape of a value the code inspects. *)
Ltac run_step :=
  match goal with
  | |- context [extern ?c ?w] =>
      destruct (extern c w) as [[?|?] ?] eqn:?; cbn in *
  | |- context [match ?p with (_, _) => _ end] =>
      is_var p; destruct p; cbn in *
  | |- context [match ?l with [] => _ | _ :: _ => _ end] =>
      is_var l; destruct l; cbn in *
  | |- context [String.eqb ?a ?b] =>
      destruct (String.eqb a b) eqn:?; cbn in *
  end.

Ltac run_emnist :=
  unfold federated_emnist.configure_training, bind, getitem_0, perform,
    pure, raise, outcome, calls; cbn;
  repeat run_step.

Ltac run_shakespeare :=
  unfold federated_shakespeare.configure_training, bind, perform, pure,
    raise, outcome, calls; cbn;
  repeat run_step.

(** A branch in which a collaborator raised, against the assumption that
    none does. *)
Ltac no_failure Hret :=
  match goal with
  | E : extern ?c ?w = (inl _, _) |- _ =>
      destruct (Hret c w) as (? & ? & ?); congruence
  end.

#[global] Arguments federated_emnist.error_message : simpl never.

(* ===================================================================== *)
(** * Rounding of integers to binary32 *)
(* ===================================================================== *)

(** An integer of at most 24 bits is a binary32 number: [binary_round] only
    shifts its mantissa left until it has 24 digits, and nothing is lost. *)

Lemma digits2_pos_iter_xO (m k : positive) :
  digits2_pos (Pos.iter xO m k) = (digits2_pos m + k)%positive.
Proof.
  induction k as [|k IH] using Pos.peano_ind.
  - simpl. lia.
  - rewrite Pos.iter_succ. simpl. rewrite IH. lia.
Qed.

Lemma Zpos_iter_xO (m k : positive) :
  Z.pos (Pos.iter xO m k) = Z.pos m * 2 ^ Z.pos k.
Proof.
  induction k as [|k IH] using Pos.peano_ind.
  - simpl. lia.
  - rewrite Pos.iter_succ, Pos2Z.inj_xO, IH, Pos2Z.inj_succ, Z.pow_succ_r
      by lia.
    lia.
Qed.

Lemma digits2_pos_lower (m : positive) :
  2 ^ (Z.pos (digits2_pos m) - 1) <= Z.pos m.
Proof.
  induction m as [m IH|m IH|]; simpl digits2_pos;
    [| |simpl; lia];
    rewrite Pos2Z.inj_succ;
    replace (Z.succ (Z.pos (digits2_pos m)) - 1)
      with (Z.succ (Z.pos (digits2_pos m) - 1)) by lia;
    rewrite Z.pow_succ_r by lia; lia.
Qed.

(** A mantissa of 24 digits is left as it is by the shift to the canonical
    exponent. *)
Lemma shr_fexp_canonical (m : positive) (e : Z) :
  Z.pos (digits2_pos m) = 24 -> -149 <= e ->
  shr_fexp 24 128 (Z.pos m) e loc_Exact =
    ({| shr_m := Z.pos m; shr_r := false; shr_s := false |}, e).
Proof.
  intros Hd He. unfold shr_fexp, fexp, emin. simpl Zdigits2. rewrite Hd.
  replace (Z.max (24 + e - 24) (3 - 128 - 24) - e) with 0 by lia.
  reflexivity.
Qed.

Lemma binary_round_aux_canonical (s : bool) (m : positive) (e : Z) :
  Z.pos (digits2_pos m) = 24 -> -149 <= e <= 104 ->
  binary_round_aux 24 128 s (Z.pos m) e loc_Exact = S754_finite s m e.
Proof.
  intros Hd He. unfold binary_round_aux.
  rewrite shr_fexp_canonical by lia. simpl.
  rewrite shr_fexp_canonical by lia. simpl.
  replace (e <=? 128 - 24) with true by (symmetry; apply Z.leb_le; lia).
  reflexivity.
Qed.

Lemma binary_round_small (s : bool) (m : positive) :
  Z.pos m < 2 ^ 24 ->
  exists m' e', binary_round 24 128 s m 0 = S754_finite s m' e'
    /\ e' <= 0 /\ Z.pos m' = Z.pos m * 2 ^ (- e').
Proof.
  intros Hm.
  pose proof (digits2_pos_lower m) as Hlow.
  assert (Hd : Z.pos (digits2_pos m) <= 24).
  { destruct (Z_le_gt_dec (Z.pos (digits2_pos m)) 24) as [|Hgt]; [done|].
    exfalso.
    assert (2 ^ 24 <= 2 ^ (Z.pos (digits2_pos m) - 1))
      by (apply Z.pow_le_mono_r; lia).
    lia. }
  unfold binary_round, shl_align, fexp, emin.
  rewrite Z.add_0_r.
  replace (Z.max (Z.pos (digits2_pos m) - 24) (3 - 128 - 24))
    with (Z.pos (digits2_pos m) - 24) by lia.
  rewrite Z.sub_0_r.
  destruct (Z.pos (digits2_pos m) - 24) as [|p|k] eqn:Hk; [|lia|].
  - exists m, 0. split; [|split; [lia | simpl; lia]].
    apply binary_round_aux_canonical; lia.
  - exists (Pos.iter xO m k), (Z.neg k). split; [|split; [lia|]].
    + apply binary_round_aux_canonical; [rewrite digits2_pos_iter_xO|]; lia.
    + rewrite Zpos_iter_xO. simpl Z.opp. reflexivity.
Qed.

Lemma denotes_binary_round (s : bool) (m : positive) :
  Z.pos m < 2 ^ 24 ->
  tf.denotes (binary_round 24 128 s m 0) (cond_Zopp s (Z.pos m)) = true.
Proof.
  intros Hm. destruct (binary_round_small s m Hm) as (m' & e' & -> & He & Hv).
  unfold tf.denotes. destruct (Z.leb_spec 0 e') as [H0|H0]; apply Z.eqb_eq.
  - assert (e' = 0) as -> by lia. change (- 0) with 0 in Hv.
    rewrite Z.pow_0_r in *. destruct s; unfold cond_Zopp; lia.
  - destruct s; unfold cond_Zopp; rewrite Hv; lia.
Qed.

Lemma int64_to_float32_exact (z : Z) :
  Z.abs z <= 2 ^ 24 -> tf.denotes (tf.int64_to_float32 z) z = true.
Proof.
  intros Hz. destruct (Z.eq_dec (Z.abs z) (2 ^ 24)) as [Heq|Hne].
  - assert (z = 2 ^ 24 \/ z = - 2 ^ 24) as [->| ->] by lia;
      vm_compute; reflexivity.
  - unfold tf.int64_to_float32, tf.prec, tf.emax.
    destruct z as [|m|m]; [reflexivity| |].
    + apply (denotes_binary_round false m). lia.
    + apply (denotes_binary_round true m). lia.
Qed.

(* ===================================================================== *)
(** * The claims *)
(* ===================================================================== *)

Section Facts.
Context `{Runtime} `{!Collaborators}.

Lemma eqb_allowed (model : string) :
  model ∈ federated_emnist.EMNIST_MODELS <->
  String.eqb model "cnn" = true \/ String.eqb model "2nn" = true.
Proof.
  unfold federated_emnist.EMNIST_MODELS.
  rewrite !elem_of_cons, elem_of_nil, !String.eqb_eq. tauto.
Qed.

(** C1.  For every [TaskSpec] and every model name in [EMNIST_MODELS],
    with collaborators that return (none raises, the federated dataset has
    a client, and the three builders return objects), EMNIST
    [configure_training] succeeds and returns a [RunnerSpec] whose four
    fields are all different from [None]. *)
Theorem emnist_configure_training_succeeds
    (task_spec : TaskSpec) (model : string) (w : World) :
  model ∈ federated_emnist.EMNIST_MODELS ->
  collaborators_return ->
  has_clients ->
  builders_return_objects ->
  exists rs w' cs,
    federated_emnist.configure_training task_spec (Some model) w
      = (Ok rs, w', cs) /\
    iterative_process rs <> VNone /\
    client_datasets_fn rs <> VNone /\
    validation_fn rs <> VNone /\
    test_fn rs <> VNone.
Proof.
  intros Hmodel Hret Hclients (Hproc & Hcdf & Heval).
  apply eqb_allowed in Hmodel.
  run_emnist;
    first [ no_failure Hret
          | congruence
          | exfalso; eapply Hclients; eauto; fail
          | destruct Hmodel; congruence
          | do 3 eexists; split; [reflexivity|]; cbn;
            repeat split; first [discriminate | eauto] ].
Qed.

Lemma eqb_not_allowed (model : string) :
  model ∉ federated_emnist.EMNIST_MODELS ->
  String.eqb model "cnn" = false /\ String.eqb model "2nn" = false.
Proof.
  rewrite eqb_allowed. intros Hn.
  destruct (String.eqb model "cnn"), (String.eqb model "2nn"); tauto.
Qed.

(** C2, amended.  For every model name outside [EMNIST_MODELS], EMNIST
    [configure_training] fails: with the value error, or with the error of
    a collaborator, or at the subscript [client_ids[0]].  It neither builds
    a model nor calls the process builder or the builder of the evaluation
    function.  The value error is raised after the loads: when the outcome
    is a [ValueError], the calls made are exactly the federated load, the
    centralized load and the three calls that read the element spec of the
    first client; and with collaborators that return and a dataset that
    has a client, the outcome is that [ValueError]. *)
Theorem emnist_unknown_model_fails_after_loading
    (task_spec : TaskSpec) (model : string) (w : World) :
  model ∉ federated_emnist.EMNIST_MODELS ->
  (outcome (federated_emnist.configure_training task_spec (Some model) w)
     = Raise (ValueError (federated_emnist.error_message model)) \/
   (exists e,
      outcome (federated_emnist.configure_training task_spec (Some model) w)
        = Raise (External e)) \/
   outcome (federated_emnist.configure_training task_spec (Some model) w)
     = Raise (IndexError "list index out of range")) /\
  Forall (fun c => is_model_build c = false)
    (calls (federated_emnist.configure_training task_spec (Some model) w)) /\
  (forall msg,
      outcome (federated_emnist.configure_training task_spec (Some model) w)
        = Raise (ValueError msg) ->
      msg = federated_emnist.error_message model /\
      exists train client_id client_dataset,
        calls (federated_emnist.configure_training task_spec (Some model) w)
          = loading_calls task_spec train client_id client_dataset) /\
  (collaborators_return -> has_clients ->
   outcome (federated_emnist.configure_training task_spec (Some model) w)
     = Raise (ValueError (federated_emnist.error_message model))).
Proof.
  intros Hmodel. apply eqb_not_allowed in Hmodel as [Hcnn H2nn].
  run_emnist; try congruence;
    (split; [first [ left; reflexivity
                   | right; left; eexists; reflexivity
                   | right; right; reflexivity ]|]);
    (split; [repeat constructor|]);
    (split;
      [ intros msg Heq;
        first [ discriminate Heq
              | injection Heq as <-; split; [reflexivity|];
                do 3 eexists; reflexivity ]
      | intros Hret Hclients;
        first [ no_failure Hret | reflexivity
              | exfalso; eapply Hclients; eauto ] ]).
Qed.

Lemma emnist_ok_validation_fn (task_spec : TaskSpec)
    (model_arg : option string) (w w' : World) rs cs :
  federated_emnist.configure_training task_spec model_arg w = (Ok rs, w', cs) ->
  validation_fn rs = Lambda_validation_fn (test_fn rs).
Proof.
  run_emnist; intros [= <- <- <-]; reflexivity.
Qed.

Lemma shakespeare_ok_validation_fn (task_spec : TaskSpec)
    (sequence_length_arg : option Z) (w w' : World) rs cs :
  federated_shakespeare.configure_training task_spec sequence_length_arg w
    = (Ok rs, w', cs) ->
  validation_fn rs = Lambda_validation_fn (test_fn rs).
Proof.
  run_shakespeare; intros [= <- <- <-]; reflexivity.
Qed.

(** C3.  For the [RunnerSpec] returned by either configurator, for every
    model weights value and every round number, calling [validation_fn]
    on both is the same computation as calling [test_fn] on the weights:
    same result, same world after, same calls. *)
Theorem validation_fn_ignores_round_num (task_spec : TaskSpec)
    (model_arg : option string) (sequence_length_arg : option Z)
    (w w' : World) (rs : RunnerSpec) (cs : list call) :
  federated_emnist.configure_training task_spec model_arg w = (Ok rs, w', cs)
  \/ federated_shakespeare.configure_training task_spec sequence_length_arg w
       = (Ok rs, w', cs) ->
  forall (model_weights round_num : value) (w0 : World),
    call_value (validation_fn rs) [model_weights; round_num] w0
      = call_value (test_fn rs) [model_weights] w0.
Proof.
  intros [Hrun|Hrun] model_weights round_num w0.
  - rewrite (emnist_ok_validation_fn _ _ _ _ _ _ Hrun). reflexivity.
  - rewrite (shakespeare_ok_validation_fn _ _ _ _ _ _ Hrun). reflexivity.
Qed.

(** C4.  For any base vocabulary, [VOCAB_SIZE] is its length plus four,
    and this is the vocabulary size that [create_shakespeare_model] hands
    to the recurrent model. *)
Theorem vocab_size_is_base_plus_four
    (answers : forall c : call, World -> (ExtErr + ret c) * World)
    (base_vocabulary : list string) (sequence_length : Z) (w : World) :
  @federated_shakespeare.VOCAB_SIZE _
      {| extern := answers; CHAR_VOCAB := base_vocabulary |}
    = Z.of_nat (length base_vocabulary) + 4 /\
  calls (@federated_shakespeare.create_shakespeare_model _
           {| extern := answers; CHAR_VOCAB := base_vocabulary |}
           sequence_length w)
    = [shakespeare_models_create_recurrent_model
         (Z.of_nat (length base_vocabulary) + 4) sequence_length].
Proof.
  split; [reflexivity|].
  unfold federated_shakespeare.create_shakespeare_model, perform, calls.
  cbn. destruct (answers _ w) as [[?|?] ?]; reflexivity.
Qed.

(** C5, amended.  Given local outputs whose ['num_tokens'] entry is an
    int64 tensor of shape [[1]] holding [N], [client_weight_fn] returns the
    float32 scalar obtained by rounding [N] to the nearest binary32 number;
    its value is [N] whenever [|N| <= 2 ^ 24]. *)
Theorem client_weight_fn_rounds_token_count
    (local_outputs : gmap string tf.Tensor) (N : Z) :
  local_outputs !! "num_tokens" = Some (tf.Int64 [1%nat] [N]) ->
  federated_shakespeare.client_weight_fn local_outputs
    = Ok (tf.Float32 [] [tf.int64_to_float32 N]) /\
  (Z.abs N <= 2 ^ 24 -> tf.denotes (tf.int64_to_float32 N) N = true).
Proof.
  intros Hlookup. unfold federated_shakespeare.client_weight_fn.
  rewrite Hlookup. split; [reflexivity|].
  apply int64_to_float32_exact.
Qed.

Lemma prefix_app (s t : string) : String.prefix s (s +:+ t) = true.
Proof.
  induction s as [|a s IH]; [destruct t; reflexivity|].
  change (String a s +:+ t) with (String a (s +:+ t)).
  cbn [String.prefix].
  destruct (Ascii.ascii_dec a a); [exact IH | congruence].
Qed.

Lemma is_infix_prefix (s t : string) :
  String.prefix s t = true -> pystr.is_infix s t = true.
Proof.
  intros Hp. destruct t; cbn [pystr.is_infix]; rewrite Hp; reflexivity.
Qed.

Lemma is_infix_append_l (before s t : string) :
  pystr.is_infix s t = true -> pystr.is_infix s (before +:+ t) = true.
Proof.
  intros Hst. induction before as [|a before IH]; [exact Hst|].
  change (String a before +:+ t) with (String a (before +:+ t)).
  cbn [pystr.is_infix]. rewrite IH. apply orb_true_r.
Qed.

Lemma is_infix_app (before s after : string) :
  pystr.is_infix s (before +:+ s +:+ after) = true.
Proof. apply is_infix_append_l, is_infix_prefix, prefix_app. Qed.

Lemma emnist_unknown_model_raises
    (task_spec : TaskSpec) (model : string) (w : World) :
  model ∉ federated_emnist.EMNIST_MODELS ->
  collaborators_return -> has_clients ->
  outcome (federated_emnist.configure_training task_spec (Some model) w)
    = Raise (ValueError (federated_emnist.error_message model)).
Proof.
  intros Hmodel Hret Hclients.
  apply eqb_not_allowed in Hmodel as [Hcnn H2nn].
  run_emnist; try congruence;
    first [ no_failure Hret | reflexivity | exfalso; eapply Hclients; eauto ].
Qed.

(** C6.  The error that EMNIST [configure_training] raises for an
    unrecognized model name is a [ValueError] whose message contains the
    model name given and the list of the valid names, ['cnn', '2nn'].  No
    other [ValueError] comes out of [configure_training], and every other
    failure is the error of a collaborator or the interpreter's
    [IndexError] at the subscript [client_ids[0]]. *)
Theorem emnist_value_error_names_input_and_allowed_set
    (task_spec : TaskSpec) (model : string) (w : World) :
  (* the message *)
  federated_emnist.error_message model
    = ("Cannot handle model flag [" +:+ model
         +:+ "], must be one of ['cnn', '2nn'].") /\
  pystr.is_infix model (federated_emnist.error_message model) = true /\
  pystr.is_infix (pystr.str_list federated_emnist.EMNIST_MODELS)
    (federated_emnist.error_message model) = true /\
  (* a value error is this one, for a model name outside the list *)
  (forall msg,
      outcome (federated_emnist.configure_training task_spec (Some model) w)
        = Raise (ValueError msg) ->
      (model ∉ federated_emnist.EMNIST_MODELS) /\
      msg = federated_emnist.error_message model) /\
  (* it is raised for such a name, once the loads have returned *)
  (model ∉ federated_emnist.EMNIST_MODELS ->
   collaborators_return -> has_clients ->
   outcome (federated_emnist.configure_training task_spec (Some model) w)
     = Raise (ValueError (federated_emnist.error_message model))) /\
  (* every other failure comes from a collaborator or from the interpreter *)
  (forall e,
      outcome (federated_emnist.configure_training task_spec (Some model) w)
        = Raise e ->
      e = ValueError (federated_emnist.error_message model) \/
      (exists e', e = External e') \/
      e = IndexError "list index out of range").
Proof.
  split; [reflexivity|].
  split; [apply (is_infix_app "Cannot handle model flag [" model)|].
  split; [do 2 apply is_infix_append_l;
          apply (is_infix_app "], must be one of " "['cnn', '2nn']" ".")|].
  split; [|split].
  - intros msg. rewrite eqb_allowed.
    run_emnist; intros Heq; try discriminate Heq.
    injection Heq as <-. split; [|reflexivity]. intros [?|?]; congruence.
  - apply emnist_unknown_model_raises.
  - run_emnist; intros err Heq; try discriminate Heq;
      injection Heq as <-; eauto 6.
Qed.

Lemma all_masked_contribute_nothing (masked : list Z) (y_true y_pred : list Z) :
  Forall (fun y => masked_accuracy.contributes masked y = false) y_true ->
  filter (fun p => masked_accuracy.contributes masked p.1 = true)
         (combine y_true y_pred) = [].
Proof.
  intros Hall. revert y_pred.
  induction Hall as [|y y_true Hy _ IH]; intros [|p y_pred]; try reflexivity.
  cbn [combine]. rewrite filter_cons_False; [apply IH|].
  cbn. rewrite Hy. discriminate.
Qed.

(** C7.  [metrics_builder] builds one masked categorical accuracy, masking
    the padding token of [get_special_tokens]; on a target sequence made
    of padding tokens only, this metric counts zero contributing positions
    and its result is a value (zero), not a division by zero. *)
Theorem masked_accuracy_of_all_padding_is_not_a_failure
    (w w' : World) (metrics : list value) (cs : list call)
    (n : nat) (y_pred : list Z) :
  federated_shakespeare.metrics_builder w = (Ok metrics, w', cs) ->
  exists pad_token oov bos eos w1,
    extern shakespeare_dataset_get_special_tokens w
      = (inr (pad_token, oov, bos, eos), w1) /\
    masked_accuracy_args cs = [[pad_token]] /\
    masked_accuracy.positions
      (masked_accuracy.update_state (masked_accuracy.new [pad_token])
         (repeat pad_token n) y_pred) = 0%nat /\
    masked_accuracy.result
      (masked_accuracy.update_state (masked_accuracy.new [pad_token])
         (repeat pad_token n) y_pred) = inr (0%nat, 1%nat).
Proof.
  unfold federated_shakespeare.metrics_builder, bind, perform, pure.
  repeat run_step; intros Heq; try discriminate Heq.
  injection Heq as <- <- <-.
  match goal with
  | |- context [(inr (?p, _, _, _), _)] => rename p into pad_token
  end.
  assert (Hnone : forall ys : list Z,
             filter (fun p : Z * Z =>
                       masked_accuracy.contributes [pad_token] p.1 = true)
                    (combine (repeat pad_token n) ys) = []).
  { intros ys. apply all_masked_contribute_nothing.
    induction n as [|k IH]; cbn [repeat]; constructor; [|exact IH].
    unfold masked_accuracy.contributes. cbn. rewrite Z.eqb_refl. reflexivity. }
  do 5 eexists. split; [reflexivity|]. split; [reflexivity|].
  unfold masked_accuracy.result, masked_accuracy.update_state. cbn.
  rewrite Hnone. split; reflexivity.
Qed.

(** The run of the EMNIST configurator when every collaborator returns,
    the dataset has a client and the model name is allowed: eight calls,
    with the model builder that the name selects. *)
Lemma emnist_run_when_collaborators_return
    (task_spec : TaskSpec) (model_arg : option string) (w : World) :
  collaborators_return -> has_clients ->
  default "cnn" model_arg ∈ federated_emnist.EMNIST_MODELS ->
  exists model_builder train test first client_dataset input_spec,
    ((default "cnn" model_arg = "cnn" /\
      model_builder = partial_create_conv_dropout_model false) \/
     (default "cnn" model_arg = "2nn" /\
      model_builder = partial_create_two_hidden_layer_model false)) /\
    calls (federated_emnist.configure_training task_spec model_arg w)
      = [emnist_dataset_get_federated_datasets
           (client_batch_size task_spec)
           (client_epochs_per_round task_spec) false;
         emnist_dataset_get_centralized_datasets false;
         ClientData_client_ids train;
         ClientData_create_tf_dataset_for_client train first;
         Dataset_element_spec client_dataset;
         call_iterative_process_builder
           (iterative_process_builder task_spec)
           (Tff_model_fn model_builder input_spec
              SparseCategoricalCrossentropy emnist_metrics_lambda)
           None;
         training_utils_build_client_datasets_fn train
           (clients_per_round task_spec)
           (client_datasets_random_seed task_spec);
         training_utils_build_centralized_evaluate_fn test model_builder
           SparseCategoricalCrossentropy emnist_metrics_lambda].
Proof.
  intros Hret Hclients Hmodel. apply eqb_allowed in Hmodel.
  run_emnist;
    first [ no_failure Hret
          | exfalso; eapply Hclients; eauto; fail
          | destruct Hmodel; congruence
          | do 6 eexists; split; [|reflexivity];
            first [ left; split; [apply String.eqb_eq; assumption|];
                    reflexivity
                  | right; split; [apply String.eqb_eq; assumption|];
                    reflexivity ] ].
Qed.

(** The run of the Shakespeare configurator when every collaborator
    returns: six calls. *)
Lemma shakespeare_run_when_collaborators_return
    (task_spec : TaskSpec) (sequence_length_arg : option Z) (w : World) :
  collaborators_return ->
  exists train test input_spec,
    calls (federated_shakespeare.configure_training
             task_spec sequence_length_arg w)
      = [shakespeare_dataset_get_federated_datasets
           (client_batch_size task_spec)
           (client_epochs_per_round task_spec)
           (default 80 sequence_length_arg);
         shakespeare_dataset_get_centralized_datasets
           (default 80 sequence_length_arg);
         ClientData_element_type_structure train;
         call_iterative_process_builder
           (iterative_process_builder task_spec)
           (Tff_model_fn
              (partial_create_shakespeare_model
                 (default 80 sequence_length_arg))
              input_spec (partial_SparseCategoricalCrossentropy true)
              shakespeare_metrics_builder)
           (Some shakespeare_client_weight_fn);
         training_utils_build_client_datasets_fn train
           (clients_per_round task_spec)
           (client_datasets_random_seed task_spec);
         training_utils_build_centralized_evaluate_fn test
           (partial_create_shakespeare_model
              (default 80 sequence_length_arg))
           (partial_SparseCategoricalCrossentropy true)
           shakespeare_metrics_builder].
Proof.
  intros Hret.
  run_shakespeare;
    first [ no_failure Hret | do 3 eexists; reflexivity ].
Qed.

(** C8.  Whatever the inputs, the EMNIST configurator calls the process
    builder with the model function only (no [client_weight_fn]), and the
    Shakespeare configurator calls it with its inner function
    [client_weight_fn]; each does so once, unless it failed before.  The
    calls are made: when the collaborators return, the fourth call of the
    Shakespeare configurator is the call of the process builder of the task
    spec with the model function and [client_weight_fn]; when moreover the
    dataset has a client and the model name is allowed, the sixth call of
    the EMNIST configurator is the call of the process builder of the task
    spec with the model function and nothing else. *)
Theorem client_weight_fn_only_for_shakespeare (task_spec : TaskSpec)
    (model_arg : option string) (sequence_length_arg : option Z) (w : World) :
  (client_weight_args
     (calls (federated_emnist.configure_training task_spec model_arg w))
     = [None] \/
   (client_weight_args
      (calls (federated_emnist.configure_training task_spec model_arg w))
      = [] /\
    exists e,
      outcome (federated_emnist.configure_training task_spec model_arg w)
        = Raise e)) /\
  (client_weight_args
     (calls (federated_shakespeare.configure_training
               task_spec sequence_length_arg w))
     = [Some shakespeare_client_weight_fn] \/
   (client_weight_args
      (calls (federated_shakespeare.configure_training
                task_spec sequence_length_arg w))
      = [] /\
    exists e,
      outcome (federated_shakespeare.configure_training
                 task_spec sequence_length_arg w)
        = Raise e)) /\
  closures.call_client_weight_fn shakespeare_client_weight_fn
    = federated_shakespeare.client_weight_fn /\
  (* the Shakespeare configurator makes the call *)
  (collaborators_return ->
   exists input_spec,
     calls (federated_shakespeare.configure_training
              task_spec sequence_length_arg w) !! 3%nat
       = Some (call_iterative_process_builder
                 (iterative_process_builder task_spec)
                 (Tff_model_fn
                    (partial_create_shakespeare_model
                       (default 80 sequence_length_arg))
                    input_spec (partial_SparseCategoricalCrossentropy true)
                    shakespeare_metrics_builder)
                 (Some shakespeare_client_weight_fn)) /\
     client_weight_args
       (calls (federated_shakespeare.configure_training
                 task_spec sequence_length_arg w))
       = [Some shakespeare_client_weight_fn]) /\
  (* the EMNIST configurator makes the call *)
  (collaborators_return -> has_clients ->
   default "cnn" model_arg ∈ federated_emnist.EMNIST_MODELS ->
   exists model_builder input_spec,
     calls (federated_emnist.configure_training task_spec model_arg w)
       !! 5%nat
       = Some (call_iterative_process_builder
                 (iterative_process_builder task_spec)
                 (Tff_model_fn model_builder input_spec
                    SparseCategoricalCrossentropy emnist_metrics_lambda)
                 None) /\
     client_weight_args
       (calls (federated_emnist.configure_training task_spec model_arg w))
       = [None]).
Proof.
  split; [|split; [|split; [reflexivity|split]]].
  - run_emnist;
      first [ left; reflexivity
            | right; split; [reflexivity | eexists; reflexivity] ].
  - run_shakespeare;
      first [ left; reflexivity
            | right; split; [reflexivity | eexists; reflexivity] ].
  - intros Hret.
    destruct (shakespeare_run_when_collaborators_return
                task_spec sequence_length_arg w Hret)
      as (train & test & input_spec & ->).
    exists input_spec. split; reflexivity.
  - intros Hret Hclients Hmodel.
    destruct (emnist_run_when_collaborators_return
                task_spec model_arg w Hret Hclients Hmodel)
      as (model_builder & train & test & first & client_dataset
          & input_spec & _ & ->).
    exists model_builder, input_spec. split; reflexivity.
Qed.

(** C9.  Whatever the task spec and the model name, every [only_digits]
    flag of an EMNIST [configure_training] run is [False]: in the
    federated load, in the centralized load, and in the model builder that
    is handed to the process builder and to the evaluation function; a
    successful run has exactly these four.  The model builder, when
    called, passes its stored flag to the model function.  The calls are
    made: the first call of every run is the federated load with
    [only_digits=False]; and when the collaborators return, the dataset
    has a client and the model name is ['cnn'] or ['2nn'], the run is the
    federated load and the centralized load, both with
    [only_digits=False], the three calls for the element spec, and the
    process builder and the builder of the evaluation function, both with
    the model builder of that name and [only_digits=False]. *)
Theorem emnist_only_digits_is_always_false (task_spec : TaskSpec)
    (model_arg : option string) (w : World) :
  Forall (fun only_digits => only_digits = false)
    (flat_map only_digits_flags
       (calls (federated_emnist.configure_training task_spec model_arg w))) /\
  ((exists e,
      outcome (federated_emnist.configure_training task_spec model_arg w)
        = Raise e) \/
   flat_map only_digits_flags
     (calls (federated_emnist.configure_training task_spec model_arg w))
     = [false; false; false; false]) /\
  (forall only_digits w0,
      calls (closures.call_model_builder
               (partial_create_conv_dropout_model only_digits) w0)
        = [emnist_models_create_conv_dropout_model only_digits] /\
      calls (closures.call_model_builder
               (partial_create_two_hidden_layer_model only_digits) w0)
        = [emnist_models_create_two_hidden_layer_model only_digits]) /\
  (* the federated load is always made, with the flag [False] *)
  head (calls (federated_emnist.configure_training task_spec model_arg w))
    = Some (emnist_dataset_get_federated_datasets
              (client_batch_size task_spec)
              (client_epochs_per_round task_spec) false) /\
  (* the three places of a run for an allowed model name *)
  (collaborators_return -> has_clients ->
   default "cnn" model_arg ∈ federated_emnist.EMNIST_MODELS ->
   exists model_builder train test first client_dataset input_spec,
     ((default "cnn" model_arg = "cnn" /\
       model_builder = partial_create_conv_dropout_model false) \/
      (default "cnn" model_arg = "2nn" /\
       model_builder = partial_create_two_hidden_layer_model false)) /\
     calls (federated_emnist.configure_training task_spec model_arg w)
       = [emnist_dataset_get_federated_datasets
            (client_batch_size task_spec)
            (client_epochs_per_round task_spec) false;
          emnist_dataset_get_centralized_datasets false;
          ClientData_client_ids train;
          ClientData_create_tf_dataset_for_client train first;
          Dataset_element_spec client_dataset;
          call_iterative_process_builder
            (iterative_process_builder task_spec)
            (Tff_model_fn model_builder input_spec
               SparseCategoricalCrossentropy emnist_metrics_lambda)
            None;
          training_utils_build_client_datasets_fn train
            (clients_per_round task_spec)
            (client_datasets_random_seed task_spec);
          training_utils_build_centralized_evaluate_fn test model_builder
            SparseCategoricalCrossentropy emnist_metrics_lambda]).
Proof.
  split; [|split; [|split; [|split]]].
  - run_emnist; repeat constructor.
  - run_emnist; first [ left; eexists; reflexivity | right; reflexivity ].
  - intros only_digits w0.
    unfold closures.call_model_builder, perform, calls. cbn.
    split; run_step; reflexivity.
  - run_emnist; reflexivity.
  - apply emnist_run_when_collaborators_return.
Qed.

(** C10.  A call of EMNIST [configure_training] without [model] is the
    call with [model='cnn'], and a call of Shakespeare
    [configure_training] without [sequence_length] is the call with
    [sequence_length=80].  Both calls are valid: ['cnn'] is an allowed
    model name, so the call with a [TaskSpec] only never raises the value
    error, and the datasets are loaded with sequence length 80. *)
Theorem configure_training_defaults (task_spec : TaskSpec) (w : World) :
  (* the defaults *)
  federated_emnist.configure_training task_spec None
    = federated_emnist.configure_training task_spec (Some "cnn") /\
  federated_shakespeare.configure_training task_spec None
    = federated_shakespeare.configure_training task_spec (Some 80) /\
  (* the default model name is a valid one: no value error *)
  "cnn" ∈ federated_emnist.EMNIST_MODELS /\
  (forall msg,
      outcome (federated_emnist.configure_training task_spec None w)
        <> Raise (ValueError msg)) /\
  (* the default sequence length is the one the datasets are loaded with *)
  head (calls (federated_shakespeare.configure_training task_spec None w))
    = Some (shakespeare_dataset_get_federated_datasets
              (client_batch_size task_spec)
              (client_epochs_per_round task_spec) 80).
Proof.
  split; [reflexivity|]. split; [reflexivity|].
  split; [apply eqb_allowed; left; reflexivity|]. split.
  - intros msg. run_emnist; discriminate.
  - run_shakespeare; reflexivity.
Qed.
End Facts.

(* ===================================================================== *)
(** * Rounding of the integers beyond 24 bits *)
(* ===================================================================== *)

Lemma shr_inv_step (M j : Z) (mrs : shr_record) :
  0 <= j -> shr_inv M j mrs -> shr_inv M (j + 1) (shr_1 mrs).
Proof.
  intros Hj (Hm & u & Hu & Heq & Hs).
  destruct mrs as [m r s]. cbn [shr_m shr_r shr_s] in *.
  unfold shr_inv. rewrite Z.pow_add_r, Z.pow_1_r by lia.
  assert (Hp : 0 < 2 ^ j) by (apply Z.pow_pos_nonneg; lia).
  set (P := 2 ^ j) in *.
  assert (Hs' : (r || s) = true <-> 0 < Z.b2z r * P + u).
  { destruct Hs as [Hs1 Hs2].
    destruct r, s; cbn [orb Z.b2z]; split; intros Hx;
      first [ reflexivity | lia | specialize (Hs1 eq_refl); lia
            | apply Hs2; lia ]. }
  destruct m as [|[p|p|]|p]; try lia; cbn [shr_1 shr_m shr_r shr_s Z.b2z];
    (split; [lia|]); exists (Z.b2z r * P + u);
    (split; [destruct r; cbn [Z.b2z]; lia|]); (split; [|exact Hs']).
  - lia.
  - rewrite Pos2Z.inj_xI in Heq. lia.
  - rewrite Pos2Z.inj_xO in Heq. lia.
  - lia.
Qed.

Lemma shr_inv_iter (M : Z) (p : positive) :
  forall (j : Z) (mrs : shr_record),
    0 <= j -> shr_inv M j mrs ->
    shr_inv M (j + Z.pos p) (SpecFloat.iter_pos shr_1 p mrs).
Proof.
  induction p as [p IH|p IH|]; intros j mrs Hj Hinv; cbn [SpecFloat.iter_pos].
  - replace (j + Z.pos p~1) with (j + 1 + Z.pos p + Z.pos p) by lia.
    apply IH; [lia|]. apply IH; [lia|]. apply shr_inv_step; assumption.
  - replace (j + Z.pos p~0) with (j + Z.pos p + Z.pos p) by lia.
    apply IH; [lia|]. apply IH; assumption.
  - apply shr_inv_step; assumption.
Qed.

Lemma digits2_pos_upper (m : positive) :
  Z.pos m < 2 ^ Z.pos (digits2_pos m).
Proof.
  induction m as [m IH|m IH|]; simpl digits2_pos;
    [| |simpl; lia];
    rewrite Pos2Z.inj_succ, Z.pow_succ_r by lia; lia.
Qed.

Lemma digits2_pos_unique (m : positive) (n : Z) :
  2 ^ (n - 1) <= Z.pos m < 2 ^ n -> Z.pos (digits2_pos m) = n.
Proof.
  intros [Hlo Hhi].
  pose proof (digits2_pos_lower m) as Hl.
  pose proof (digits2_pos_upper m) as Hu.
  set (d := Z.pos (digits2_pos m)) in *.
  assert (Hd : 0 < d) by (subst d; lia).
  assert (Hn : 0 < n).
  { destruct (Z_lt_le_dec 0 n) as [|Hle]; [assumption|].
    exfalso. rewrite (Z.pow_neg_r 2 (n - 1)) in Hlo by lia.
    assert (2 ^ n <= 1); [|lia].
    destruct (Z.eq_dec n 0) as [->|]; [simpl; lia|].
    rewrite Z.pow_neg_r by lia. lia. }
  destruct (Z.lt_trichotomy d n) as [Hlt|[Heq|Hgt]]; [|exact Heq|].
  - exfalso. assert (2 ^ d <= 2 ^ (n - 1)) by (apply Z.pow_le_mono_r; lia). lia.
  - exfalso. assert (2 ^ n <= 2 ^ (d - 1)) by (apply Z.pow_le_mono_r; lia). lia.
Qed.

Lemma shr_inv_round (M k : Z) (mrs : shr_record) :
  0 <= k -> shr_inv M k mrs ->
  (round_nearest_even (shr_m mrs) (loc_of_shr_record mrs) = shr_m mrs \/
   round_nearest_even (shr_m mrs) (loc_of_shr_record mrs) = shr_m mrs + 1) /\
  2 * Z.abs (round_nearest_even (shr_m mrs) (loc_of_shr_record mrs) * 2 ^ k - M)
    <= 2 ^ k /\
  shr_m mrs * 2 ^ k <= M < (shr_m mrs + 1) * 2 ^ k.
Proof.
  intros Hk (Hm & u & Hu & Heq & [Hs1 Hs2]).
  destruct mrs as [m r s]. cbn [shr_m shr_r shr_s] in *.
  assert (Hp : 0 < 2 ^ k) by (apply Z.pow_pos_nonneg; lia).
  set (P := 2 ^ k) in *.
  assert (Hu' : s = false -> u = 0).
  { intros ->. destruct (Z.eq_dec u 0); [assumption|].
    assert (false = true) by (apply Hs2; lia). discriminate. }
  assert (Hu'' : s = true -> 0 < u) by (intros ->; apply Hs1; reflexivity).
  destruct r, s; cbn [loc_of_shr_record round_nearest_even Z.b2z] in *;
    try specialize (Hu' eq_refl); try specialize (Hu'' eq_refl);
    try destruct (Z.even m); repeat split; lia.
Qed.

Lemma shr_fexp_carry (e : Z) :
  -149 <= e ->
  shr_fexp 24 128 (2 ^ 24) e loc_Exact =
    ({| shr_m := 2 ^ 23; shr_r := false; shr_s := false |}, e + 1).
Proof.
  intros He. unfold shr_fexp, fexp, emin.
  change (Zdigits2 (2 ^ 24)) with 25.
  replace (Z.max (25 + e - 24) (3 - 128 - 24) - e) with 1 by lia.
  reflexivity.
Qed.

Lemma binary_round_large (s : bool) (m : positive) :
  2 ^ 24 <= Z.pos m < 2 ^ 63 ->
  exists q e,
    binary_round 24 128 s m 0 = S754_finite s q e /\
    1 <= e <= 40 /\
    2 ^ 24 * Z.abs (Z.pos q * 2 ^ e - Z.pos m) <= Z.pos m.
Proof.
  intros [Hlo Hhi].
  pose proof (digits2_pos_lower m) as Hl.
  pose proof (digits2_pos_upper m) as Hu.
  set (d := Z.pos (digits2_pos m)) in *.
  assert (Hd : 25 <= d <= 63).
  { split.
    - destruct (Z_le_gt_dec 25 d) as [|Hgt]; [assumption|]. exfalso.
      assert (2 ^ d <= 2 ^ 24) by (apply Z.pow_le_mono_r; lia). lia.
    - destruct (Z_le_gt_dec d 63) as [|Hgt]; [assumption|]. exfalso.
      assert (2 ^ 63 <= 2 ^ (d - 1)) by (apply Z.pow_le_mono_r; lia). lia. }
  unfold binary_round, shl_align, fexp, emin.
  rewrite Z.add_0_r. fold d.
  replace (Z.max (d - 24) (3 - 128 - 24)) with (d - 24) by lia.
  rewrite Z.sub_0_r.
  destruct (d - 24) as [|k|k] eqn:Hk; try lia.
  unfold binary_round_aux.
  assert (Hshr : shr_fexp 24 128 (Z.pos m) 0 loc_Exact
                 = (SpecFloat.iter_pos shr_1 k
                      {| shr_m := Z.pos m; shr_r := false; shr_s := false |},
                    Z.pos k)).
  { unfold shr_fexp, fexp, emin. simpl Zdigits2. fold d.
    rewrite Z.add_0_r.
    replace (Z.max (d - 24) (3 - 128 - 24) - 0) with (Z.pos k) by lia.
    reflexivity. }
  rewrite Hshr. clear Hshr.
  assert (Hinv : shr_inv (Z.pos m) (0 + Z.pos k)
                   (SpecFloat.iter_pos shr_1 k
                      {| shr_m := Z.pos m; shr_r := false; shr_s := false |})).
  { apply shr_inv_iter; [lia|]. split; [cbn; lia|].
    exists 0. cbn [shr_m shr_r shr_s Z.b2z].
    repeat split; first [lia | discriminate]. }
  rewrite Z.add_0_l in Hinv.
  destruct (SpecFloat.iter_pos shr_1 k _) as [m' r' s'] eqn:Hiter.
  pose proof (shr_inv_round _ _ _ (Pos2Z.is_nonneg k) Hinv) as (Hq & Herr & Hm').
  cbn [shr_m] in *.
  set (q := round_nearest_even m' (loc_of_shr_record
               {| shr_m := m'; shr_r := r'; shr_s := s' |})) in *.
  assert (Hpk : 0 < 2 ^ Z.pos k) by (apply Z.pow_pos_nonneg; lia).
  assert (Hsplit : 2 ^ (d - 1) = 2 ^ 23 * 2 ^ Z.pos k).
  { rewrite <- Z.pow_add_r by lia. f_equal. lia. }
  assert (Hsplit' : 2 ^ d = 2 ^ 24 * 2 ^ Z.pos k).
  { rewrite <- Z.pow_add_r by lia. f_equal. lia. }
  assert (Hm'b : 2 ^ 23 <= m' < 2 ^ 24) by nia.
  assert (Hqb : 2 ^ 23 <= q <= 2 ^ 24) by lia.
  assert (Hrel : 2 ^ 24 * Z.abs (q * 2 ^ Z.pos k - Z.pos m) <= Z.pos m) by nia.
  destruct (Z.eq_dec q (2 ^ 24)) as [Hq24|Hq24].
  - (* the mantissa carried over to 25 digits: one more shift *)
    exists (2 ^ 23)%positive, (Z.pos k + 1). rewrite Hq24.
    split; [|split; [lia|]].
    + rewrite shr_fexp_carry by lia. cbn [shr_m].
      change (2 ^ 23) with (Z.pos (2 ^ 23)).
      replace (Z.pos k + 1 <=? 128 - 24) with true
        by (symmetry; apply Z.leb_le; lia).
      reflexivity.
    + rewrite Hq24 in Hrel. rewrite Z.pow_add_r, Z.pow_1_r by lia.
      replace (Z.pos (2 ^ 23) * (2 ^ Z.pos k * 2))
        with (2 ^ 24 * 2 ^ Z.pos k) by (change (Z.pos (2 ^ 23)) with (2 ^ 23); lia).
      exact Hrel.
  - destruct q as [|qp|qp] eqn:Hqp; try lia.
    exists qp, (Z.pos k). split; [|split; [lia|exact Hrel]].
    rewrite shr_fexp_canonical; [|apply digits2_pos_unique; lia|lia].
    cbn [shr_m].
    replace (Z.pos k <=? 128 - 24) with true
      by (symmetry; apply Z.leb_le; lia).
    reflexivity.
Qed.

(** Every 64-bit integer is rounded to a finite binary32 number whose
    value is an integer within a relative error of [2 ^ -24]. *)
Lemma int64_to_float32_accurate (N : Z) :
  - 2 ^ 63 <= N < 2 ^ 63 ->
  exists v,
    tf.denotes (tf.int64_to_float32 N) v = true /\
    2 ^ 24 * Z.abs (v - N) <= Z.abs N.
Proof.
  intros HN.
  destruct (Z_le_gt_dec (Z.abs N) (2 ^ 24)) as [Hsmall|Hbig].
  { exists N. split; [apply int64_to_float32_exact; exact Hsmall|].
    rewrite Z.sub_diag. simpl Z.abs. lia. }
  destruct (Z.eq_dec N (- 2 ^ 63)) as [->|Hmin].
  { exists (- 2 ^ 63). split; vm_compute; [reflexivity|discriminate]. }
  unfold tf.int64_to_float32, tf.prec, tf.emax, binary_normalize.
  destruct N as [|m|m]; [simpl in Hbig; lia| |].
  - destruct (binary_round_large false m) as (q & e & -> & He & Hrel); [lia|].
    exists (Z.pos q * 2 ^ e). split; [|exact Hrel].
    unfold tf.denotes. replace (0 <=? e) with true
      by (symmetry; apply Z.leb_le; lia).
    apply Z.eqb_eq. reflexivity.
  - destruct (binary_round_large true m) as (q & e & -> & He & Hrel); [lia|].
    exists (- (Z.pos q * 2 ^ e)). split.
    + unfold tf.denotes. replace (0 <=? e) with true
        by (symmetry; apply Z.leb_le; lia).
      apply Z.eqb_eq. cbn [cond_Zopp]. lia.
    + rewrite <- Pos2Z.opp_pos. lia.
Qed.

Lemma append_length (s t : string) :
  String.length (s +:+ t) = (String.length s + String.length t)%nat.
Proof.
  induction s as [|a s IH]; [reflexivity|].
  change (String a s +:+ t) with (String a (s +:+ t)).
  cbn [String.length]. rewrite IH. reflexivity.
Qed.

Lemma append_cancel_l (before s t : string) :
  before +:+ s = before +:+ t -> s = t.
Proof.
  induction before as [|a before IH]; intros Heq; [exact Heq|].
  change (String a (before +:+ s) = String a (before +:+ t)) in Heq.
  injection Heq as Heq. apply IH, Heq.
Qed.

Lemma append_cancel_r (after : string) :
  forall s t : string, s +:+ after = t +:+ after -> s = t.
Proof.
  induction s as [|a s IH]; intros [|b t] Heq.
  - reflexivity.
  - exfalso. apply (f_equal String.length) in Heq.
    change (String b t +:+ after) with (String b (t +:+ after)) in Heq.
    change ("" +:+ after) with after in Heq.
    cbn [String.length] in Heq. rewrite append_length in Heq. lia.
  - exfalso. apply (f_equal String.length) in Heq.
    change (String a s +:+ after) with (String a (s +:+ after)) in Heq.
    change ("" +:+ after) with after in Heq.
    cbn [String.length] in Heq. rewrite append_length in Heq. lia.
  - change (String a (s +:+ after) = String b (t +:+ after)) in Heq.
    injection Heq as -> Heq. f_equal. apply IH, Heq.
Qed.

Lemma shape_size_squeeze (s : list nat) :
  shape_size (filter (fun d => d <> 1%nat) s) = shape_size s.
Proof.
  induction s as [|d s IH]; [reflexivity|].
  destruct (decide (d = 1%nat)) as [->|Hd].
  - rewrite filter_cons_False by (intros Hne; apply Hne; reflexivity).
    rewrite IH. unfold shape_size. cbn [fold_right]. apply eq_sym, Nat.mul_1_l.
  - rewrite filter_cons_True by exact Hd.
    unfold shape_size in *. cbn [fold_right]. rewrite IH. reflexivity.
Qed.

Lemma squeeze_all_ones (s : list nat) :
  Forall (fun d => d = 1%nat) s -> filter (fun d => d <> 1%nat) s = [].
Proof.
  induction 1 as [|d s Hd _ IH]; [reflexivity|].
  rewrite filter_cons_False; [exact IH|]. intros Hne. apply Hne, Hd.
Qed.

Section Coverage.
Context `{Runtime} `{!Collaborators}.

(** X1.  For every task spec and every sequence length, given or left out,
    the Shakespeare configurator succeeds when no collaborator raises and
    the three builders return objects; it needs no client in the dataset.
    The four fields of the [RunnerSpec] are different from [None] and
    [validation_fn] is the lambda around [test_fn]. *)
Theorem shakespeare_configure_training_succeeds
    (task_spec : TaskSpec) (sequence_length_arg : option Z) (w : World) :
  collaborators_return ->
  builders_return_objects ->
  exists rs w' cs,
    federated_shakespeare.configure_training task_spec sequence_length_arg w
      = (Ok rs, w', cs) /\
    iterative_process rs <> VNone /\
    client_datasets_fn rs <> VNone /\
    test_fn rs <> VNone /\
    validation_fn rs = Lambda_validation_fn (test_fn rs).
Proof.
  intros Hret (Hproc & Hcdf & Heval).
  run_shakespeare;
    first [ no_failure Hret
          | do 3 eexists; split; [reflexivity|]; cbn;
            repeat split; first [reflexivity | eauto] ].
Qed.

(** X2.  The Shakespeare configurator raises nothing by itself: whatever
    the sequence length, zero and negative ones included, a failure is the
    error of the collaborator that was called last. *)
Theorem shakespeare_fails_only_where_a_collaborator_fails
    (task_spec : TaskSpec) (sequence_length_arg : option Z) (w : World)
    (e : exn) :
  outcome (federated_shakespeare.configure_training
             task_spec sequence_length_arg w) = Raise e ->
  exists e' c w0 w1,
    e = External e' /\
    last (calls (federated_shakespeare.configure_training
                   task_spec sequence_length_arg w)) = Some c /\
    extern c w0 = (inl e', w1).
Proof.
  run_shakespeare; intros Heq; try discriminate Heq;
    injection Heq as <-; do 4 eexists;
    (split; [reflexivity|]); (split; [reflexivity|]); eassumption.
Qed.

(** X3.  One sequence length goes everywhere in a Shakespeare run: the
    federated load, the centralized load and the model builder handed to the
    process builder and to the evaluation function all get the argument of
    [configure_training] (80 when it is left out); a successful run has
    these four.  The model builder, when called, asks for a recurrent model
    of that sequence length over [VOCAB_SIZE] tokens.  The calls are made:
    the first call of every run is the federated load with that sequence
    length, and when the collaborators return the run is the six calls
    below, four of which carry it. *)
Theorem shakespeare_sequence_length_goes_everywhere
    (task_spec : TaskSpec) (sequence_length_arg : option Z) (w : World) :
  Forall (fun l => l = default 80 sequence_length_arg)
    (flat_map sequence_length_args
       (calls (federated_shakespeare.configure_training
                 task_spec sequence_length_arg w))) /\
  ((exists e,
      outcome (federated_shakespeare.configure_training
                 task_spec sequence_length_arg w) = Raise e) \/
   length (flat_map sequence_length_args
             (calls (federated_shakespeare.configure_training
                       task_spec sequence_length_arg w))) = 4%nat) /\
  (forall l w0,
      calls (closures.call_model_builder
               (partial_create_shakespeare_model l) w0)
        = [shakespeare_models_create_recurrent_model
             (Z.of_nat (length CHAR_VOCAB) + 4) l]) /\
  (* the federated load is always made, with the sequence length *)
  head (calls (federated_shakespeare.configure_training
                 task_spec sequence_length_arg w))
    = Some (shakespeare_dataset_get_federated_datasets
              (client_batch_size task_spec)
              (client_epochs_per_round task_spec)
              (default 80 sequence_length_arg)) /\
  (* the four places of a run whose collaborators return *)
  (collaborators_return ->
   exists train test input_spec,
     calls (federated_shakespeare.configure_training
              task_spec sequence_length_arg w)
       = [shakespeare_dataset_get_federated_datasets
            (client_batch_size task_spec)
            (client_epochs_per_round task_spec)
            (default 80 sequence_length_arg);
          shakespeare_dataset_get_centralized_datasets
            (default 80 sequence_length_arg);
          ClientData_element_type_structure train;
          call_iterative_process_builder
            (iterative_process_builder task_spec)
            (Tff_model_fn
               (partial_create_shakespeare_model
                  (default 80 sequence_length_arg))
               input_spec (partial_SparseCategoricalCrossentropy true)
               shakespeare_metrics_builder)
            (Some shakespeare_client_weight_fn);
          training_utils_build_client_datasets_fn train
            (clients_per_round task_spec)
            (client_datasets_random_seed task_spec);
          training_utils_build_centralized_evaluate_fn test
            (partial_create_shakespeare_model
               (default 80 sequence_length_arg))
            (partial_SparseCategoricalCrossentropy true)
            shakespeare_metrics_builder]).
Proof.
  split; [|split; [|split; [|split]]].
  - run_shakespeare; repeat constructor.
  - run_shakespeare; first [ left; eexists; reflexivity | right; reflexivity ].
  - intros l w0.
    unfold closures.call_model_builder,
      federated_shakespeare.create_shakespeare_model, perform, calls.
    cbn. run_step; reflexivity.
  - run_shakespeare; reflexivity.
  - apply shakespeare_run_when_collaborators_return.
Qed.

(** X4.  The model name selects the architecture, and training and
    evaluation get the same builders: for ['cnn'] every hand-over carries
    the convolutional model builder, for ['2nn'] the two-hidden-layer one,
    each with the loss class and the accuracy lambda; a successful run hands
    the builders over twice (to the process builder inside the model
    function, and to the evaluation function), a run with another name
    never. *)
Theorem emnist_model_name_selects_the_architecture
    (task_spec : TaskSpec) (w : World) :
  Forall (fun t => t = (partial_create_conv_dropout_model false,
                        SparseCategoricalCrossentropy, emnist_metrics_lambda))
    (flat_map builders_handed_over
       (calls (federated_emnist.configure_training task_spec (Some "cnn") w))) /\
  Forall (fun t => t = (partial_create_two_hidden_layer_model false,
                        SparseCategoricalCrossentropy, emnist_metrics_lambda))
    (flat_map builders_handed_over
       (calls (federated_emnist.configure_training task_spec (Some "2nn") w))) /\
  (forall model,
      model ∉ federated_emnist.EMNIST_MODELS ->
      flat_map builders_handed_over
        (calls (federated_emnist.configure_training task_spec (Some model) w))
        = []) /\
  (forall model_arg rs w' cs,
      federated_emnist.configure_training task_spec model_arg w
        = (Ok rs, w', cs) ->
      length (flat_map builders_handed_over cs) = 2%nat).
Proof.
  split; [|split; [|split]].
  - run_emnist; repeat constructor.
  - run_emnist; repeat constructor.
  - intros model Hmodel. apply eqb_not_allowed in Hmodel as [Hcnn H2nn].
    run_emnist; first [congruence | reflexivity].
  - intros model_arg rs w' cs.
    run_emnist; intros Heq; try discriminate Heq;
      injection Heq as <- <- <-; reflexivity.
Qed.

(** X5.  In a Shakespeare run training and evaluation get the same
    builders: the recurrent model builder for the sequence length given, the
    loss with [from_logits=True] and the module's [metrics_builder]; a
    successful run hands them over twice.  Both hand-overs are made: when
    the collaborators return, the fourth call is the process builder with a
    model function that captured these three builders, and the sixth call
    is the builder of the evaluation function with the same three. *)
Theorem shakespeare_training_and_evaluation_share_builders
    (task_spec : TaskSpec) (sequence_length_arg : option Z) (w : World) :
  Forall (fun t => t = (partial_create_shakespeare_model
                          (default 80 sequence_length_arg),
                        partial_SparseCategoricalCrossentropy true,
                        shakespeare_metrics_builder))
    (flat_map builders_handed_over
       (calls (federated_shakespeare.configure_training
                 task_spec sequence_length_arg w))) /\
  ((exists e,
      outcome (federated_shakespeare.configure_training
                 task_spec sequence_length_arg w) = Raise e) \/
   length (flat_map builders_handed_over
             (calls (federated_shakespeare.configure_training
                       task_spec sequence_length_arg w))) = 2%nat) /\
  (collaborators_return ->
   exists process_builder_call evaluate_fn_call input_spec test,
     calls (federated_shakespeare.configure_training
              task_spec sequence_length_arg w) !! 3%nat
       = Some process_builder_call /\
     process_builder_call
       = call_iterative_process_builder
           (iterative_process_builder task_spec)
           (Tff_model_fn
              (partial_create_shakespeare_model
                 (default 80 sequence_length_arg))
              input_spec (partial_SparseCategoricalCrossentropy true)
              shakespeare_metrics_builder)
           (Some shakespeare_client_weight_fn) /\
     calls (federated_shakespeare.configure_training
              task_spec sequence_length_arg w) !! 5%nat
       = Some evaluate_fn_call /\
     evaluate_fn_call
       = training_utils_build_centralized_evaluate_fn test
           (partial_create_shakespeare_model
              (default 80 sequence_length_arg))
           (partial_SparseCategoricalCrossentropy true)
           shakespeare_metrics_builder /\
     builders_handed_over process_builder_call
       = builders_handed_over evaluate_fn_call).
Proof.
  split; [|split].
  - run_shakespeare; repeat constructor.
  - run_shakespeare; first [ left; eexists; reflexivity | right; reflexivity ].
  - intros Hret.
    destruct (shakespeare_run_when_collaborators_return
                task_spec sequence_length_arg w Hret)
      as (train & test & input_spec & ->).
    do 2 eexists. exists input_spec, test.
    repeat split; reflexivity.
Qed.

(** X6.  Neither configurator constructs a model, a loss or a metric
    itself: no run, successful or not, contains such a call.  The builders
    are only handed over; the construction happens when the model function
    is called, whose first call is always the model construction. *)
Theorem configure_training_constructs_nothing
    (task_spec : TaskSpec) (model_arg : option string)
    (sequence_length_arg : option Z) (w : World) :
  Forall (fun c => is_construction c = false)
    (calls (federated_emnist.configure_training task_spec model_arg w)) /\
  Forall (fun c => is_construction c = false)
    (calls (federated_shakespeare.configure_training
              task_spec sequence_length_arg w)) /\
  (forall f w0,
      head (calls (closures.tff_model_fn f w0))
        = Some (model_call (captured_model_builder f)) /\
      is_construction (model_call (captured_model_builder f)) = true).
Proof.
  split; [|split].
  - run_emnist; repeat constructor.
  - run_shakespeare; repeat constructor.
  - intros [mb spec lb ms] w0. split; [|destruct mb; reflexivity].
    unfold closures.tff_model_fn, closures.call_model_builder,
      federated_shakespeare.create_shakespeare_model, bind, perform, calls.
    cbn. destruct mb; cbn; run_step; try reflexivity;
      repeat match goal with
             | |- context [let '(_, _) := ?x in _] => destruct x as [[? ?] ?]
             end; reflexivity.
Qed.

(** X7.  A successful EMNIST run is eight calls, each on the world the one
    before left: the federated load with the batch size and the epochs of
    the task spec, the centralized load, the client ids of the federated
    training set, the dataset of its first client, the element spec of that
    dataset, the process builder, the builder of the client sampling on the
    federated training set with the clients per round and the seed of the
    task spec, and the builder of the evaluation function on the
    centralized test set.  The fields of the [RunnerSpec] are the answers
    of the last three. *)
Theorem emnist_success_data_flow
    (task_spec : TaskSpec) (model_arg : option string)
    (w w' : World) (rs : RunnerSpec) (cs : list call) :
  federated_emnist.configure_training task_spec model_arg w = (Ok rs, w', cs) ->
  exists train validation central test first others client_dataset input_spec
         model_builder w1 w2 w3 w4 w5 w6 w7,
    extern (emnist_dataset_get_federated_datasets
              (client_batch_size task_spec)
              (client_epochs_per_round task_spec) false) w
      = (inr (train, validation), w1) /\
    extern (emnist_dataset_get_centralized_datasets false) w1
      = (inr (central, test), w2) /\
    extern (ClientData_client_ids train) w2 = (inr (first :: others), w3) /\
    extern (ClientData_create_tf_dataset_for_client train first) w3
      = (inr client_dataset, w4) /\
    extern (Dataset_element_spec client_dataset) w4 = (inr input_spec, w5) /\
    extern (call_iterative_process_builder
              (iterative_process_builder task_spec)
              (Tff_model_fn model_builder input_spec
                 SparseCategoricalCrossentropy emnist_metrics_lambda)
              None) w5
      = (inr (iterative_process rs), w6) /\
    extern (training_utils_build_client_datasets_fn train
              (clients_per_round task_spec)
              (client_datasets_random_seed task_spec)) w6
      = (inr (client_datasets_fn rs), w7) /\
    extern (training_utils_build_centralized_evaluate_fn test model_builder
              SparseCategoricalCrossentropy emnist_metrics_lambda) w7
      = (inr (test_fn rs), w') /\
    validation_fn rs = Lambda_validation_fn (test_fn rs) /\
    cs = [emnist_dataset_get_federated_datasets
            (client_batch_size task_spec)
            (client_epochs_per_round task_spec) false;
          emnist_dataset_get_centralized_datasets false;
          ClientData_client_ids train;
          ClientData_create_tf_dataset_for_client train first;
          Dataset_element_spec client_dataset;
          call_iterative_process_builder
            (iterative_process_builder task_spec)
            (Tff_model_fn model_builder input_spec
               SparseCategoricalCrossentropy emnist_metrics_lambda)
            None;
          training_utils_build_client_datasets_fn train
            (clients_per_round task_spec)
            (client_datasets_random_seed task_spec);
          training_utils_build_centralized_evaluate_fn test model_builder
            SparseCategoricalCrossentropy emnist_metrics_lambda].
Proof.
  run_emnist; intros Heq; try discriminate Heq;
    injection Heq as <- <- <-; cbn;
    do 16 eexists;
    repeat (split; [first [eassumption | reflexivity]|]); reflexivity.
Qed.

(** X8.  A successful Shakespeare run is six calls, each on the world the
    one before left: the federated load with the batch size and the epochs
    of the task spec, the centralized load, the element type structure of
    the federated training set, the process builder with the inner
    [client_weight_fn], the builder of the client sampling on the federated
    training set, and the builder of the evaluation function on the
    centralized test set.  The fields of the [RunnerSpec] are the answers
    of the last three. *)
Theorem shakespeare_success_data_flow
    (task_spec : TaskSpec) (sequence_length_arg : option Z)
    (w w' : World) (rs : RunnerSpec) (cs : list call) :
  federated_shakespeare.configure_training task_spec sequence_length_arg w
    = (Ok rs, w', cs) ->
  exists train validation central test input_spec w1 w2 w3 w4 w5,
    extern (shakespeare_dataset_get_federated_datasets
              (client_batch_size task_spec)
              (client_epochs_per_round task_spec)
              (default 80 sequence_length_arg)) w
      = (inr (train, validation), w1) /\
    extern (shakespeare_dataset_get_centralized_datasets
              (default 80 sequence_length_arg)) w1
      = (inr (central, test), w2) /\
    extern (ClientData_element_type_structure train) w2
      = (inr input_spec, w3) /\
    extern (call_iterative_process_builder
              (iterative_process_builder task_spec)
              (Tff_model_fn
                 (partial_create_shakespeare_model
                    (default 80 sequence_length_arg))
                 input_spec (partial_SparseCategoricalCrossentropy true)
                 shakespeare_metrics_builder)
              (Some shakespeare_client_weight_fn)) w3
      = (inr (iterative_process rs), w4) /\
    extern (training_utils_build_client_datasets_fn train
              (clients_per_round task_spec)
              (client_datasets_random_seed task_spec)) w4
      = (inr (client_datasets_fn rs), w5) /\
    extern (training_utils_build_centralized_evaluate_fn test
              (partial_create_shakespeare_model
                 (default 80 sequence_length_arg))
              (partial_SparseCategoricalCrossentropy true)
              shakespeare_metrics_builder) w5
      = (inr (test_fn rs), w') /\
    validation_fn rs = Lambda_validation_fn (test_fn rs) /\
    length cs = 6%nat.
Proof.
  run_shakespeare; intros Heq; try discriminate Heq;
    injection Heq as <- <- <-; cbn;
    do 10 eexists;
    repeat (split; [first [eassumption | reflexivity]|]); reflexivity.
Qed.

(** What a successful [bind] and a successful [perform] are made of. *)
Lemma bind_ok {A B} (m : M A) (k : A -> M B)
    (w w' : World) (b : B) (cs : list call) :
  bind m k w = (Ok b, w', cs) ->
  exists a w1 cs1 cs2,
    m w = (Ok a, w1, cs1) /\ k a w1 = (Ok b, w', cs2) /\ cs = cs1 ++ cs2.
Proof.
  unfold bind. destruct (m w) as [[[a|e] w1] cs1]; [|discriminate].
  destruct (k a w1) as [[r w2] cs2] eqn:Hk.
  intros [= -> -> <-]. exists a, w1, cs1, cs2.
  split; [reflexivity|]. split; [exact Hk | reflexivity].
Qed.

Lemma perform_ok (c : call) (w w' : World) (a : ret c) (cs : list call) :
  perform c w = (Ok a, w', cs) ->
  extern c w = (inr a, w') /\ cs = [c].
Proof.
  unfold perform. destruct (extern c w) as [[e|a'] w1]; [discriminate|].
  intros [= -> -> <-]. split; reflexivity.
Qed.

(** A builder that returns made the one call of its kind, and a metrics
    builder that returns made no call of [from_keras_model] and returns as
    many metrics as [metrics_count] says. *)
Lemma call_model_builder_calls (f : model_builder_t)
    (w w' : World) (keras_model : value) (cs : list call) :
  closures.call_model_builder f w = (Ok keras_model, w', cs) ->
  cs = [model_call f].
Proof.
  destruct f; cbn;
    unfold federated_shakespeare.create_shakespeare_model;
    intros Hrun;
    match type of Hrun with
    | perform ?c _ = _ => apply (perform_ok c) in Hrun as [_ ->]
    end; reflexivity.
Qed.

Lemma call_loss_builder_calls (f : loss_builder_t)
    (w w' : World) (loss : value) (cs : list call) :
  closures.call_loss_builder f w = (Ok loss, w', cs) ->
  cs = [loss_call f].
Proof.
  destruct f; cbn; intros Hrun;
    match type of Hrun with
    | perform ?c _ = _ => apply (perform_ok c) in Hrun as [_ ->]
    end; reflexivity.
Qed.

Lemma call_metrics_builder_ok (f : metrics_builder_t)
    (w w' : World) (metrics : list value) (cs : list call) :
  closures.call_metrics_builder f w = (Ok metrics, w', cs) ->
  length metrics = metrics_count f /\ from_keras_model_args cs = [].
Proof.
  destruct f;
    unfold closures.call_metrics_builder,
      federated_shakespeare.metrics_builder, bind, perform, pure;
    cbn; repeat run_step; intros Heq; try discriminate Heq;
    injection Heq as <- <- <-; split; reflexivity.
Qed.

(** X9.  A successful call of the model function is the call of the model
    builder, then of the loss builder, then of the metrics builder, each on
    the world the one before left, and then one call of [from_keras_model]
    with exactly what the three returned and the input spec captured at
    configuration time; the result is what [from_keras_model] returned.
    The model, the loss and the metrics are built anew at every call; the
    metrics are one for EMNIST and four for Shakespeare. *)
Theorem tff_model_fn_wraps_what_it_just_built
    (f : tff_model_fn_t) (w w' : World) (r : value) (cs : list call) :
  closures.tff_model_fn f w = (Ok r, w', cs) ->
  exists keras_model loss metrics w1 w2 w3 metrics_calls,
    closures.call_model_builder (captured_model_builder f) w
      = (Ok keras_model, w1, [model_call (captured_model_builder f)]) /\
    closures.call_loss_builder (captured_loss_builder f) w1
      = (Ok loss, w2, [loss_call (captured_loss_builder f)]) /\
    closures.call_metrics_builder (captured_metrics_builder f) w2
      = (Ok metrics, w3, metrics_calls) /\
    extern (tff_learning_from_keras_model
              keras_model (captured_input_spec f) loss metrics) w3
      = (inr r, w') /\
    cs = model_call (captured_model_builder f)
         :: loss_call (captured_loss_builder f)
         :: metrics_calls
         ++ [tff_learning_from_keras_model
               keras_model (captured_input_spec f) loss metrics] /\
    head cs = Some (model_call (captured_model_builder f)) /\
    from_keras_model_args cs
      = [(keras_model, captured_input_spec f, loss, metrics)] /\
    last cs = Some (tff_learning_from_keras_model
                      keras_model (captured_input_spec f) loss metrics) /\
    length metrics = metrics_count (captured_metrics_builder f).
Proof.
  intros Hrun. unfold closures.tff_model_fn in Hrun.
  apply bind_ok in Hrun as (keras_model & w1 & cs1 & cs1' & Hmodel & Hrun & ->).
  apply bind_ok in Hrun as (loss & w2 & cs2 & cs2' & Hloss & Hrun & ->).
  apply bind_ok in Hrun as (metrics & w3 & cs3 & cs3' & Hmetrics & Hrun & ->).
  apply (perform_ok (tff_learning_from_keras_model _ _ _ _)) in Hrun
    as [Hwrap ->].
  pose proof (call_model_builder_calls _ _ _ _ _ Hmodel) as ->.
  pose proof (call_loss_builder_calls _ _ _ _ _ Hloss) as ->.
  destruct (call_metrics_builder_ok _ _ _ _ _ Hmetrics) as [Hcount Hnone].
  exists keras_model, loss, metrics, w1, w2, w3, cs3.
  repeat (split; [first [assumption | reflexivity]|]).
  split; [|split; [|exact Hcount]].
  - unfold from_keras_model_args in *. cbn [app flat_map].
    rewrite flat_map_app, Hnone.
    destruct (captured_model_builder f), (captured_loss_builder f);
      reflexivity.
  - change (last ((model_call (captured_model_builder f)
                   :: loss_call (captured_loss_builder f) :: cs3)
                  ++ [tff_learning_from_keras_model
                        keras_model (captured_input_spec f) loss metrics])
            = Some (tff_learning_from_keras_model
                      keras_model (captured_input_spec f) loss metrics)).
    apply last_snoc.
Qed.

(** X10.  [metrics_builder] reads the special tokens at every call and
    returns four metrics; the token counter and the masked accuracy mask
    the same single token, the padding token: the out-of-vocabulary, the
    begin and the end tokens are counted by both. *)
Theorem metrics_builder_masks_the_padding_token_only
    (w w' : World) (metrics : list value) (cs : list call) :
  federated_shakespeare.metrics_builder w = (Ok metrics, w', cs) ->
  exists pad_token oov bos eos w1,
    extern shakespeare_dataset_get_special_tokens w
      = (inr (pad_token, oov, bos, eos), w1) /\
    length metrics = 4%nat /\
    token_counter_args cs = [[pad_token]] /\
    masked_accuracy_args cs = token_counter_args cs /\
    head cs = Some shakespeare_dataset_get_special_tokens.
Proof.
  unfold federated_shakespeare.metrics_builder, bind, perform, pure.
  repeat run_step; intros Heq; try discriminate Heq.
  injection Heq as <- <- <-.
  do 5 eexists. repeat split; reflexivity.
Qed.

(** X11.  [client_weight_fn] reads the entry ['num_tokens'] and nothing
    else: it raises [KeyError('num_tokens')] exactly when the entry is
    missing and raises nothing else, and inserting or deleting any other
    entry does not change its result. *)
Theorem client_weight_fn_reads_num_tokens_only
    (local_outputs : gmap string tf.Tensor) (key : string) (t : tf.Tensor) :
  key <> "num_tokens" ->
  federated_shakespeare.client_weight_fn (<[key := t]> local_outputs)
    = federated_shakespeare.client_weight_fn local_outputs /\
  federated_shakespeare.client_weight_fn (delete key local_outputs)
    = federated_shakespeare.client_weight_fn local_outputs /\
  (federated_shakespeare.client_weight_fn local_outputs
     = Raise (KeyError "num_tokens")
   <-> local_outputs !! "num_tokens" = None) /\
  (forall e,
      federated_shakespeare.client_weight_fn local_outputs = Raise e ->
      e = KeyError "num_tokens") /\
  federated_shakespeare.client_weight_fn
    (<["num_tokens" := t]> local_outputs)
    = Ok (tf.cast_float32 (tf.squeeze t)).
Proof.
  intros Hkey. unfold federated_shakespeare.client_weight_fn.
  rewrite lookup_insert_ne by exact Hkey.
  rewrite lookup_delete_ne by exact Hkey.
  rewrite lookup_insert_eq.
  repeat split; try reflexivity.
  - destruct (local_outputs !! "num_tokens"); [discriminate|reflexivity].
  - intros ->. reflexivity.
  - intros e. destruct (local_outputs !! "num_tokens"); [discriminate|].
    intros [= <-]. reflexivity.
Qed.

(** X12.  Whatever the tensor under ['num_tokens'], the weight is a
    float32 tensor with the same number of elements and no dimension of
    size 1 left; when every dimension has size 1 (shapes [[1]], [[1, 1]],
    or a scalar already) the weight is a scalar; a float32 tensor is only
    squeezed. *)
Theorem client_weight_fn_returns_a_squeezed_float32
    (local_outputs : gmap string tf.Tensor) (t : tf.Tensor) :
  local_outputs !! "num_tokens" = Some t ->
  exists r,
    federated_shakespeare.client_weight_fn local_outputs = Ok r /\
    is_float32 r = true /\
    tensor_length r = tensor_length t /\
    shape_size (tensor_shape r) = shape_size (tensor_shape t) /\
    (1%nat ∉ tensor_shape r) /\
    (Forall (fun d => d = 1%nat) (tensor_shape t) -> tensor_shape r = []) /\
    (is_float32 t = true -> r = tf.squeeze t).
Proof.
  intros Hlookup. unfold federated_shakespeare.client_weight_fn.
  rewrite Hlookup. eexists. split; [reflexivity|].
  destruct t as [s xs|s xs]; cbn [tf.squeeze tf.cast_float32 is_float32
    tensor_length tensor_shape]; repeat split;
    try reflexivity; try discriminate;
    try apply shape_size_squeeze; try apply squeeze_all_ones;
    try (rewrite length_map; reflexivity);
    rewrite list_elem_of_filter; intros [Hne _]; apply Hne; reflexivity.
Qed.

(** X13.  For every 64-bit token count [N] the weight is a finite float32
    scalar, never an infinity or a NaN; its value [v] is an integer with
    [|v - N| <= |N| / 2 ^ 24]; a client with at least one token gets a
    positive weight and a client without tokens the weight zero. *)
Theorem client_weight_is_within_float32_precision
    (local_outputs : gmap string tf.Tensor) (N : Z) :
  local_outputs !! "num_tokens" = Some (tf.Int64 [1%nat] [N]) ->
  - 2 ^ 63 <= N < 2 ^ 63 ->
  exists f v,
    federated_shakespeare.client_weight_fn local_outputs
      = Ok (tf.Float32 [] [f]) /\
    tf.denotes f v = true /\
    2 ^ 24 * Z.abs (v - N) <= Z.abs N /\
    (0 < N -> 0 < v) /\
    (N = 0 -> v = 0).
Proof.
  intros Hlookup HN.
  destruct (int64_to_float32_accurate N HN) as (v & Hv & Hrel).
  exists (tf.int64_to_float32 N), v.
  unfold federated_shakespeare.client_weight_fn. rewrite Hlookup.
  repeat split; try assumption; lia.
Qed.

(** X14.  The message of the value error tells the model names apart: two
    different model names never give the same message. *)
Theorem emnist_error_message_identifies_the_model (model1 model2 : string) :
  model1 <> model2 ->
  federated_emnist.error_message model1
    <> federated_emnist.error_message model2.
Proof.
  intros Hne Heq. apply Hne.
  unfold federated_emnist.error_message in Heq.
  apply append_cancel_l in Heq.
  apply (append_cancel_r _ model1 model2) in Heq. exact Heq.
Qed.

(** X15.  The validation function of either configurator takes exactly two
    positional arguments: called with any other number of arguments it
    raises a [TypeError] and does not call the evaluation function. *)
Theorem validation_fn_needs_both_arguments
    (task_spec : TaskSpec) (model_arg : option string)
    (sequence_length_arg : option Z)
    (w w' : World) (rs : RunnerSpec) (cs : list call)
    (args : list value) (w0 : World) :
  federated_emnist.configure_training task_spec model_arg w = (Ok rs, w', cs)
  \/ federated_shakespeare.configure_training task_spec sequence_length_arg w
       = (Ok rs, w', cs) ->
  length args <> 2%nat ->
  exists message,
    call_value (validation_fn rs) args w0
      = (Raise (TypeError message), w0, []).
Proof.
  intros Hrun Hlen.
  assert (Hfn : validation_fn rs = Lambda_validation_fn (test_fn rs)).
  { destruct Hrun as [Hrun|Hrun];
      [ exact (emnist_ok_validation_fn _ _ _ _ _ _ Hrun)
      | exact (shakespeare_ok_validation_fn _ _ _ _ _ _ Hrun) ]. }
  rewrite Hfn. destruct args as [|a [|b [|c args]]]; cbn in *;
    first [lia | eexists; reflexivity].
Qed.

(** X16.  The EMNIST configurator fails in three ways only: with the error
    of the collaborator it called last; with an [IndexError] at the
    subscript [client_ids[0]], right after the client ids came back empty;
    or with the [ValueError] for a model name that is neither ['cnn'] nor
    ['2nn']. *)
Theorem emnist_failure_modes
    (task_spec : TaskSpec) (model_arg : option string) (w : World)
    (e : exn) :
  outcome (federated_emnist.configure_training task_spec model_arg w)
    = Raise e ->
  (exists e' c w0 w1,
      e = External e' /\
      last (calls (federated_emnist.configure_training
                     task_spec model_arg w)) = Some c /\
      extern c w0 = (inl e', w1)) \/
  (e = IndexError "list index out of range" /\
   exists train w0 w1,
     last (calls (federated_emnist.configure_training
                    task_spec model_arg w))
       = Some (ClientData_client_ids train) /\
     extern (ClientData_client_ids train) w0 = (inr [], w1)) \/
  (e = ValueError (federated_emnist.error_message (default "cnn" model_arg)) /\
   default "cnn" model_arg ∉ federated_emnist.EMNIST_MODELS).
Proof.
  run_emnist; intros Heq; try discriminate Heq; injection Heq as <-;
    first
      [ left; do 4 eexists;
        (split; [reflexivity|]); (split; [reflexivity|]); eassumption
      | right; left; split; [reflexivity|]; do 3 eexists;
        split; [reflexivity|]; eassumption
      | right; right; split; [reflexivity|];
        rewrite eqb_allowed; intros [?|?]; congruence ].
Qed.

(** X17.  The model function raises nothing by itself: when a call of it
    fails, the error is the one of the collaborator called last (the model,
    the loss, the special tokens, a metric or [from_keras_model]), and
    nothing is called after it. *)
Theorem tff_model_fn_fails_only_where_a_collaborator_fails
    (f : tff_model_fn_t) (w : World) (e : exn) :
  outcome (closures.tff_model_fn f w) = Raise e ->
  exists e' c w0 w1,
    e = External e' /\
    last (calls (closures.tff_model_fn f w)) = Some c /\
    extern c w0 = (inl e', w1).
Proof.
  destruct f as [mb spec lb ms].
  unfold closures.tff_model_fn, closures.call_model_builder,
    closures.call_loss_builder, closures.call_metrics_builder,
    federated_shakespeare.create_shakespeare_model,
    federated_shakespeare.metrics_builder, bind, perform, pure,
    outcome, calls.
  destruct mb, lb, ms; cbn; repeat run_step;
    intros Heq; try discriminate Heq; injection Heq as <-;
    do 4 eexists;
    (split; [reflexivity|]); (split; [reflexivity|]); eassumption.
Qed.

End Coverage.

(* ===================================================================== *)
(** * The theorems in the concrete environment *)
(* ===================================================================== *)

Import example.

(** The two configurators with their defaults. *)
Example emnist_default_run :
  federated_emnist.configure_training task_spec None 0%nat
    = (Ok emnist_runner_spec, 8%nat,
       [emnist_dataset_get_federated_datasets 20 1 false;
        emnist_dataset_get_centralized_datasets false;
        ClientData_client_ids (VObj "emnist_train");
        ClientData_create_tf_dataset_for_client (VObj "emnist_train") "f0000_14";
        Dataset_element_spec (VObj "client_dataset");
        call_iterative_process_builder "fed_avg_builder"
          (Tff_model_fn (partial_create_conv_dropout_model false)
             (VObj "element_spec") SparseCategoricalCrossentropy
             emnist_metrics_lambda)
          None;
        training_utils_build_client_datasets_fn (VObj "emnist_train") 10 1;
        training_utils_build_centralized_evaluate_fn (VObj "emnist_test")
          (partial_create_conv_dropout_model false)
          SparseCategoricalCrossentropy emnist_metrics_lambda]).
Proof. reflexivity. Qed.

Example shakespeare_default_run :
  calls (federated_shakespeare.configure_training task_spec None 0%nat)
    = [shakespeare_dataset_get_federated_datasets 20 1 80;
       shakespeare_dataset_get_centralized_datasets 80;
       ClientData_element_type_structure (VObj "shakespeare_train");
       call_iterative_process_builder "fed_avg_builder"
         (Tff_model_fn (partial_create_shakespeare_model 80)
            (VObj "element_type_structure")
            (partial_SparseCategoricalCrossentropy true)
            shakespeare_metrics_builder)
         (Some shakespeare_client_weight_fn);
       training_utils_build_client_datasets_fn (VObj "shakespeare_train") 10 1;
       training_utils_build_centralized_evaluate_fn (VObj "shakespeare_test")
         (partial_create_shakespeare_model 80)
         (partial_SparseCategoricalCrossentropy true)
         shakespeare_metrics_builder].
Proof. reflexivity. Qed.

(** What the process builder sees when it calls the model function it was
    given: the vocabulary has three characters here, so the recurrent model
    is built for seven tokens. *)
Example shakespeare_tff_model_fn_run :
  closures.tff_model_fn
    (Tff_model_fn (partial_create_shakespeare_model 80)
       (VObj "element_type_structure")
       (partial_SparseCategoricalCrossentropy true)
       shakespeare_metrics_builder) 0%nat
    = (Ok (VObj "tff_model"), 8%nat,
       [shakespeare_models_create_recurrent_model 7 80;
        keras_losses_SparseCategoricalCrossentropy (Some true);
        shakespeare_dataset_get_special_tokens;
        keras_metrics_NumBatchesCounter;
        keras_metrics_NumExamplesCounter;
        keras_metrics_NumTokensCounter [0];
        keras_metrics_MaskedCategoricalAccuracy [0];
        tff_learning_from_keras_model (VObj "recurrent_model")
          (VObj "element_type_structure") (VObj "loss")
          [VObj "num_batches"; VObj "num_examples"; VObj "num_tokens";
           VObj "masked_accuracy"]]).
Proof. reflexivity. Qed.

(** Without a client the subscript [client_ids[0]] fails, whatever the
    model name. *)
Example emnist_run_without_clients :
  @federated_emnist.configure_training _ collaborators_without_clients
    task_spec None 0%nat
    = (Raise (IndexError "list index out of range"), 3%nat,
       [emnist_dataset_get_federated_datasets 20 1 false;
        emnist_dataset_get_centralized_datasets false;
        ClientData_client_ids (VObj "emnist_train")]).
Proof. reflexivity. Qed.

(** [repr] on strings with quotes and control characters. *)
Example repr_examples :
  pystr.repr "cnn" = "'cnn'" /\
  pystr.repr "it's" = String pystr.dquote ("it's" +:+ String pystr.dquote "") /\
  pystr.repr (String (ascii_of_nat 10) "x")
    = String pystr.quote (String pystr.backslash ("nx" +:+ "'")) /\
  pystr.str_list ["cnn"; "2nn"] = "['cnn', '2nn']".
Proof. repeat split; reflexivity. Qed.

Lemma example_collaborators_return : collaborators_return.
Proof. intros c w. exists (answer c), (S w). reflexivity. Qed.

Lemma example_has_clients : has_clients.
Proof. intros self w ids w' [= <- _]. discriminate. Qed.

Lemma example_builders_return_objects : builders_return_objects.
Proof. repeat split; intros; simplify_eq/=; discriminate. Qed.

Lemma rnn_not_allowed : "rnn" ∉ federated_emnist.EMNIST_MODELS.
Proof. rewrite eqb_allowed. intros [?|?]; discriminate. Qed.

Lemma emnist_configure_training_succeeds_witness :
  "2nn" ∈ federated_emnist.EMNIST_MODELS /\
  collaborators_return /\ has_clients /\ builders_return_objects /\
  exists rs w' cs,
    federated_emnist.configure_training task_spec (Some "2nn") 0%nat
      = (Ok rs, w', cs) /\
    iterative_process rs <> VNone /\
    client_datasets_fn rs <> VNone /\
    validation_fn rs <> VNone /\
    test_fn rs <> VNone.
Proof.
  assert (Hmodel : "2nn" ∈ federated_emnist.EMNIST_MODELS)
    by (apply eqb_allowed; right; reflexivity).
  exact (conj Hmodel
          (conj example_collaborators_return
             (conj example_has_clients
                (conj example_builders_return_objects
                   (emnist_configure_training_succeeds
                      task_spec "2nn" 0%nat Hmodel
                      example_collaborators_return example_has_clients
                      example_builders_return_objects))))).
Defined.

(** C2 as stated fails: for the model name ['rnn'] the value error is raised
    after five calls, the first of which loads the federated dataset. *)
Lemma emnist_unknown_model_loads_datasets_first :
  ("rnn" ∉ federated_emnist.EMNIST_MODELS) /\
  federated_emnist.configure_training task_spec (Some "rnn") 0%nat
    = (Raise (ValueError
                "Cannot handle model flag [rnn], must be one of ['cnn', '2nn']."),
       5%nat,
       [emnist_dataset_get_federated_datasets 20 1 false;
        emnist_dataset_get_centralized_datasets false;
        ClientData_client_ids (VObj "emnist_train");
        ClientData_create_tf_dataset_for_client (VObj "emnist_train") "f0000_14";
        Dataset_element_spec (VObj "client_dataset")]) /\
  ~ Forall (fun c => is_dataset_load c = false)
      (calls (federated_emnist.configure_training task_spec (Some "rnn") 0%nat)).
Proof.
  split; [exact rnn_not_allowed|]. split; [reflexivity|].
  intros Hall. inversion Hall as [|c cs Hload _]. discriminate Hload.
Qed.

Lemma emnist_unknown_model_fails_after_loading_witness :
  ("rnn" ∉ federated_emnist.EMNIST_MODELS) /\
  Forall (fun c => is_model_build c = false)
    (calls (federated_emnist.configure_training task_spec (Some "rnn") 0%nat)) /\
  outcome (federated_emnist.configure_training task_spec (Some "rnn") 0%nat)
    = Raise (ValueError (federated_emnist.error_message "rnn")).
Proof.
  pose proof (emnist_unknown_model_fails_after_loading
                task_spec "rnn" 0%nat rnn_not_allowed)
    as (_ & Hbuild & _ & Hraise).
  exact (conj rnn_not_allowed
          (conj Hbuild
             (Hraise example_collaborators_return example_has_clients))).
Defined.

Lemma validation_fn_ignores_round_num_witness :
  (federated_emnist.configure_training task_spec None 0%nat
     = (Ok emnist_runner_spec, 8%nat,
        calls (federated_emnist.configure_training task_spec None 0%nat))
   \/ federated_shakespeare.configure_training task_spec None 0%nat
        = (Ok emnist_runner_spec, 8%nat,
           calls (federated_emnist.configure_training task_spec None 0%nat))) /\
  forall (model_weights round_num : value) (w0 : World),
    call_value (validation_fn emnist_runner_spec) [model_weights; round_num] w0
      = call_value (test_fn emnist_runner_spec) [model_weights] w0.
Proof.
  assert (Hrun :
    federated_emnist.configure_training task_spec None 0%nat
      = (Ok emnist_runner_spec, 8%nat,
         calls (federated_emnist.configure_training task_spec None 0%nat))
    \/ federated_shakespeare.configure_training task_spec None 0%nat
         = (Ok emnist_runner_spec, 8%nat,
            calls (federated_emnist.configure_training task_spec None 0%nat)))
    by (left; reflexivity).
  exact (conj Hrun
          (validation_fn_ignores_round_num task_spec None None 0%nat 8%nat
             emnist_runner_spec _ Hrun)).
Defined.

(** C5 as stated fails: a count of [2 ^ 24 + 1 = 16777217] tokens becomes
    the float32 scalar [8388608 * 2 = 16777216]. *)
Lemma client_weight_fn_inexact_above_2_24 :
  local_outputs_large !! "num_tokens" = Some (tf.Int64 [1%nat] [16777217]) /\
  federated_shakespeare.client_weight_fn local_outputs_large
    = Ok (tf.Float32 [] [S754_finite false 8388608 1]) /\
  tf.denotes (S754_finite false 8388608 1) 16777217 = false /\
  tf.denotes (S754_finite false 8388608 1) 16777216 = true.
Proof. repeat split; vm_compute; reflexivity. Qed.

Lemma client_weight_fn_rounds_token_count_witness :
  local_outputs !! "num_tokens" = Some (tf.Int64 [1%nat] [1234]) /\
  federated_shakespeare.client_weight_fn local_outputs
    = Ok (tf.Float32 [] [tf.int64_to_float32 1234]) /\
  tf.denotes (tf.int64_to_float32 1234) 1234 = true.
Proof.
  assert (Hlookup :
    local_outputs !! "num_tokens" = Some (tf.Int64 [1%nat] [1234]))
    by (vm_compute; reflexivity).
  assert (Hsmall : Z.abs 1234 <= 2 ^ 24) by (vm_compute; discriminate).
  pose proof (client_weight_fn_rounds_token_count local_outputs 1234 Hlookup)
    as [Hvalue Hexact].
  exact (conj Hlookup (conj Hvalue (Hexact Hsmall))).
Defined.

Lemma emnist_value_error_witness :
  ("rnn" ∉ federated_emnist.EMNIST_MODELS) /\
  outcome (federated_emnist.configure_training task_spec (Some "rnn") 0%nat)
    = Raise (ValueError
               "Cannot handle model flag [rnn], must be one of ['cnn', '2nn'].").
Proof.
  pose proof (emnist_value_error_names_input_and_allowed_set
                task_spec "rnn" 0%nat)
    as (_ & _ & _ & _ & Hraise & _).
  exact (conj rnn_not_allowed
          (Hraise rnn_not_allowed example_collaborators_return
             example_has_clients)).
Defined.

Lemma masked_accuracy_of_all_padding_witness :
  federated_shakespeare.metrics_builder 0%nat
    = (Ok [VObj "num_batches"; VObj "num_examples"; VObj "num_tokens";
           VObj "masked_accuracy"],
       5%nat,
       calls (federated_shakespeare.metrics_builder 0%nat)) /\
  exists pad_token oov bos eos w1,
    extern shakespeare_dataset_get_special_tokens 0%nat
      = (inr (pad_token, oov, bos, eos), w1) /\
    masked_accuracy_args (calls (federated_shakespeare.metrics_builder 0%nat))
      = [[pad_token]] /\
    masked_accuracy.positions
      (masked_accuracy.update_state (masked_accuracy.new [pad_token])
         (repeat pad_token 3) [7; 8; 9]) = 0%nat /\
    masked_accuracy.result
      (masked_accuracy.update_state (masked_accuracy.new [pad_token])
         (repeat pad_token 3) [7; 8; 9]) = inr (0%nat, 1%nat).
Proof.
  assert (Hrun :
    federated_shakespeare.metrics_builder 0%nat
      = (Ok [VObj "num_batches"; VObj "num_examples"; VObj "num_tokens";
             VObj "masked_accuracy"],
         5%nat,
         calls (federated_shakespeare.metrics_builder 0%nat)))
    by reflexivity.
  exact (conj Hrun
          (masked_accuracy_of_all_padding_is_not_a_failure
             0%nat 5%nat _ _ 3%nat [7; 8; 9] Hrun)).
Defined.

Lemma client_weight_fn_only_for_shakespeare_witness :
  collaborators_return /\ has_clients /\
  ("2nn" ∈ federated_emnist.EMNIST_MODELS) /\
  (exists input_spec,
      calls (federated_shakespeare.configure_training
               task_spec (Some 100) 0%nat) !! 3%nat
        = Some (call_iterative_process_builder
                  (iterative_process_builder task_spec)
                  (Tff_model_fn (partial_create_shakespeare_model 100)
                     input_spec (partial_SparseCategoricalCrossentropy true)
                     shakespeare_metrics_builder)
                  (Some shakespeare_client_weight_fn)) /\
      client_weight_args
        (calls (federated_shakespeare.configure_training
                  task_spec (Some 100) 0%nat))
        = [Some shakespeare_client_weight_fn]) /\
  (exists model_builder input_spec,
      calls (federated_emnist.configure_training
               task_spec (Some "2nn") 0%nat) !! 5%nat
        = Some (call_iterative_process_builder
                  (iterative_process_builder task_spec)
                  (Tff_model_fn model_builder input_spec
                     SparseCategoricalCrossentropy emnist_metrics_lambda)
                  None) /\
      client_weight_args
        (calls (federated_emnist.configure_training
                  task_spec (Some "2nn") 0%nat))
        = [None]).
Proof.
  assert (Hmodel : "2nn" ∈ federated_emnist.EMNIST_MODELS)
    by (apply eqb_allowed; right; reflexivity).
  pose proof (client_weight_fn_only_for_shakespeare
                task_spec (Some "2nn") (Some 100) 0%nat)
    as (_ & _ & _ & Hshakespeare & Hemnist).
  exact (conj example_collaborators_return
          (conj example_has_clients
             (conj Hmodel
                (conj (Hshakespeare example_collaborators_return)
                   (Hemnist example_collaborators_return
                      example_has_clients Hmodel))))).
Defined.

Lemma emnist_only_digits_is_always_false_witness :
  collaborators_return /\ has_clients /\
  ("2nn" ∈ federated_emnist.EMNIST_MODELS) /\
  exists model_builder train test first client_dataset input_spec,
    (("2nn" = "cnn" /\
      model_builder = partial_create_conv_dropout_model false) \/
     ("2nn" = "2nn" /\
      model_builder = partial_create_two_hidden_layer_model false)) /\
    calls (federated_emnist.configure_training task_spec (Some "2nn") 0%nat)
      = [emnist_dataset_get_federated_datasets
           (client_batch_size task_spec)
           (client_epochs_per_round task_spec) false;
         emnist_dataset_get_centralized_datasets false;
         ClientData_client_ids train;
         ClientData_create_tf_dataset_for_client train first;
         Dataset_element_spec client_dataset;
         call_iterative_process_builder
           (iterative_process_builder task_spec)
           (Tff_model_fn model_builder input_spec
              SparseCategoricalCrossentropy emnist_metrics_lambda)
           None;
         training_utils_build_client_datasets_fn train
           (clients_per_round task_spec)
           (client_datasets_random_seed task_spec);
         training_utils_build_centralized_evaluate_fn test model_builder
           SparseCategoricalCrossentropy emnist_metrics_lambda].
Proof.
  assert (Hmodel : "2nn" ∈ federated_emnist.EMNIST_MODELS)
    by (apply eqb_allowed; right; reflexivity).
  pose proof (emnist_only_digits_is_always_false
                task_spec (Some "2nn") 0%nat)
    as (_ & _ & _ & _ & Hplaces).
  exact (conj example_collaborators_return
          (conj example_has_clients
             (conj Hmodel
                (Hplaces example_collaborators_return
                   example_has_clients Hmodel)))).
Defined.

(* ===================================================================== *)
(** * Further runs in the concrete environments *)
(* ===================================================================== *)

Import example_runs.

Lemma shakespeare_configure_training_succeeds_witness :
  collaborators_return /\ builders_return_objects /\
  exists rs w' cs,
    federated_shakespeare.configure_training task_spec (Some 100) 0%nat
      = (Ok rs, w', cs) /\
    iterative_process rs <> VNone /\
    client_datasets_fn rs <> VNone /\
    test_fn rs <> VNone /\
    validation_fn rs = Lambda_validation_fn (test_fn rs).
Proof.
  exact (conj example_collaborators_return
          (conj example_builders_return_objects
             (shakespeare_configure_training_succeeds
                task_spec (Some 100) 0%nat
                example_collaborators_return
                example_builders_return_objects))).
Defined.

(** When the centralized load raises, the run stops there with that
    error. *)
Lemma shakespeare_fails_only_where_a_collaborator_fails_witness :
  outcome (federated_shakespeare.configure_training
             (H0 := collaborators_without_test_set)
             task_spec None 0%nat)
    = Raise (External "shakespeare test set not found") /\
  exists e' c w0 w1,
    External "shakespeare test set not found" = External e' /\
    last (calls (federated_shakespeare.configure_training
                   (H0 := collaborators_without_test_set)
                   task_spec None 0%nat)) = Some c /\
    extern (Collaborators := collaborators_without_test_set)
      c w0 = (inl e', w1).
Proof.
  assert (Hrun :
    outcome (federated_shakespeare.configure_training
               (H0 := collaborators_without_test_set)
               task_spec None 0%nat)
      = Raise (External "shakespeare test set not found"))
    by reflexivity.
  exact (conj Hrun
          (@shakespeare_fails_only_where_a_collaborator_fails
             runtime collaborators_without_test_set
             task_spec None 0%nat _ Hrun)).
Defined.

Lemma shakespeare_sequence_length_goes_everywhere_witness :
  collaborators_return /\
  exists train test input_spec,
    calls (federated_shakespeare.configure_training
             task_spec (Some 100) 0%nat)
      = [shakespeare_dataset_get_federated_datasets
           (client_batch_size task_spec)
           (client_epochs_per_round task_spec) 100;
         shakespeare_dataset_get_centralized_datasets 100;
         ClientData_element_type_structure train;
         call_iterative_process_builder
           (iterative_process_builder task_spec)
           (Tff_model_fn
              (partial_create_shakespeare_model 100)
              input_spec (partial_SparseCategoricalCrossentropy true)
              shakespeare_metrics_builder)
           (Some shakespeare_client_weight_fn);
         training_utils_build_client_datasets_fn train
           (clients_per_round task_spec)
           (client_datasets_random_seed task_spec);
         training_utils_build_centralized_evaluate_fn test
           (partial_create_shakespeare_model 100)
           (partial_SparseCategoricalCrossentropy true)
           shakespeare_metrics_builder].
Proof.
  pose proof (shakespeare_sequence_length_goes_everywhere
                task_spec (Some 100) 0%nat)
    as (_ & _ & _ & _ & Hplaces).
  exact (conj example_collaborators_return
          (Hplaces example_collaborators_return)).
Defined.

Lemma emnist_model_name_selects_the_architecture_witness :
  ("rnn" ∉ federated_emnist.EMNIST_MODELS) /\
  flat_map builders_handed_over
    (calls (federated_emnist.configure_training task_spec (Some "rnn") 0%nat))
    = [] /\
  length
    (flat_map builders_handed_over
       (calls (federated_emnist.configure_training task_spec None 0%nat)))
    = 2%nat.
Proof.
  pose proof (emnist_model_name_selects_the_architecture task_spec 0%nat)
    as (_ & _ & Hnever & Htwice).
  exact (conj rnn_not_allowed
          (conj (Hnever "rnn" rnn_not_allowed)
             (Htwice None _ _ _ emnist_default_run))).
Defined.

Lemma shakespeare_training_and_evaluation_share_builders_witness :
  collaborators_return /\
  exists process_builder_call evaluate_fn_call input_spec test,
    calls (federated_shakespeare.configure_training
             task_spec (Some 100) 0%nat) !! 3%nat
      = Some process_builder_call /\
    process_builder_call
      = call_iterative_process_builder
          (iterative_process_builder task_spec)
          (Tff_model_fn (partial_create_shakespeare_model 100)
             input_spec (partial_SparseCategoricalCrossentropy true)
             shakespeare_metrics_builder)
          (Some shakespeare_client_weight_fn) /\
    calls (federated_shakespeare.configure_training
             task_spec (Some 100) 0%nat) !! 5%nat
      = Some evaluate_fn_call /\
    evaluate_fn_call
      = training_utils_build_centralized_evaluate_fn test
          (partial_create_shakespeare_model 100)
          (partial_SparseCategoricalCrossentropy true)
          shakespeare_metrics_builder /\
    builders_handed_over process_builder_call
      = builders_handed_over evaluate_fn_call.
Proof.
  pose proof (shakespeare_training_and_evaluation_share_builders
                task_spec (Some 100) 0%nat)
    as (_ & _ & Hboth).
  exact (conj example_collaborators_return
          (Hboth example_collaborators_return)).
Defined.

Lemma emnist_success_data_flow_witness :
  federated_emnist.configure_training task_spec None 0%nat
    = (Ok emnist_runner_spec, 8%nat,
       calls (federated_emnist.configure_training task_spec None 0%nat)) /\
  exists train validation central test first others client_dataset input_spec
         model_builder w1 w2 w3 w4 w5 w6 w7,
    extern (emnist_dataset_get_federated_datasets
              (client_batch_size task_spec)
              (client_epochs_per_round task_spec) false) 0%nat
      = (inr (train, validation), w1) /\
    extern (emnist_dataset_get_centralized_datasets false) w1
      = (inr (central, test), w2) /\
    extern (ClientData_client_ids train) w2 = (inr (first :: others), w3) /\
    extern (ClientData_create_tf_dataset_for_client train first) w3
      = (inr client_dataset, w4) /\
    extern (Dataset_element_spec client_dataset) w4 = (inr input_spec, w5) /\
    extern (call_iterative_process_builder
              (iterative_process_builder task_spec)
              (Tff_model_fn model_builder input_spec
                 SparseCategoricalCrossentropy emnist_metrics_lambda)
              None) w5
      = (inr (iterative_process emnist_runner_spec), w6) /\
    extern (training_utils_build_client_datasets_fn train
              (clients_per_round task_spec)
              (client_datasets_random_seed task_spec)) w6
      = (inr (client_datasets_fn emnist_runner_spec), w7) /\
    extern (training_utils_build_centralized_evaluate_fn test model_builder
              SparseCategoricalCrossentropy emnist_metrics_lambda) w7
      = (inr (test_fn emnist_runner_spec), 8%nat) /\
    validation_fn emnist_runner_spec
      = Lambda_validation_fn (test_fn emnist_runner_spec) /\
    calls (federated_emnist.configure_training task_spec None 0%nat)
      = [emnist_dataset_get_federated_datasets
            (client_batch_size task_spec)
            (client_epochs_per_round task_spec) false;
          emnist_dataset_get_centralized_datasets false;
          ClientData_client_ids train;
          ClientData_create_tf_dataset_for_client train first;
          Dataset_element_spec client_dataset;
          call_iterative_process_builder
            (iterative_process_builder task_spec)
            (Tff_model_fn model_builder input_spec
               SparseCategoricalCrossentropy emnist_metrics_lambda)
            None;
          training_utils_build_client_datasets_fn train
            (clients_per_round task_spec)
            (client_datasets_random_seed task_spec);
          training_utils_build_centralized_evaluate_fn test model_builder
            SparseCategoricalCrossentropy emnist_metrics_lambda].
Proof.
  assert (Hrun :
    federated_emnist.configure_training task_spec None 0%nat
      = (Ok emnist_runner_spec, 8%nat,
         calls (federated_emnist.configure_training task_spec None 0%nat)))
    by reflexivity.
  exact (conj Hrun
          (emnist_success_data_flow
                task_spec None 0%nat 8%nat emnist_runner_spec _ Hrun)).
Defined.

Lemma shakespeare_success_data_flow_witness :
  federated_shakespeare.configure_training task_spec (Some 100) 0%nat
    = (Ok shakespeare_runner_spec, 6%nat,
       calls (federated_shakespeare.configure_training
                task_spec (Some 100) 0%nat)) /\
  exists train validation central test input_spec w1 w2 w3 w4 w5,
    extern (shakespeare_dataset_get_federated_datasets
              (client_batch_size task_spec)
              (client_epochs_per_round task_spec)
              (default 80 (Some 100))) 0%nat
      = (inr (train, validation), w1) /\
    extern (shakespeare_dataset_get_centralized_datasets
              (default 80 (Some 100))) w1
      = (inr (central, test), w2) /\
    extern (ClientData_element_type_structure train) w2
      = (inr input_spec, w3) /\
    extern (call_iterative_process_builder
              (iterative_process_builder task_spec)
              (Tff_model_fn
                 (partial_create_shakespeare_model
                    (default 80 (Some 100)))
                 input_spec (partial_SparseCategoricalCrossentropy true)
                 shakespeare_metrics_builder)
              (Some shakespeare_client_weight_fn)) w3
      = (inr (iterative_process shakespeare_runner_spec), w4) /\
    extern (training_utils_build_client_datasets_fn train
              (clients_per_round task_spec)
              (client_datasets_random_seed task_spec)) w4
      = (inr (client_datasets_fn shakespeare_runner_spec), w5) /\
    extern (training_utils_build_centralized_evaluate_fn test
              (partial_create_shakespeare_model
                 (default 80 (Some 100)))
              (partial_SparseCategoricalCrossentropy true)
              shakespeare_metrics_builder) w5
      = (inr (test_fn shakespeare_runner_spec), 6%nat) /\
    validation_fn shakespeare_runner_spec
      = Lambda_validation_fn
          (test_fn shakespeare_runner_spec) /\
    length
      (calls (federated_shakespeare.configure_training
                task_spec (Some 100) 0%nat))
      = 6%nat.
Proof.
  assert (Hrun :
    federated_shakespeare.configure_training task_spec (Some 100) 0%nat
      = (Ok shakespeare_runner_spec, 6%nat,
         calls (federated_shakespeare.configure_training
                  task_spec (Some 100) 0%nat)))
    by reflexivity.
  exact (conj Hrun
          (shakespeare_success_data_flow
                task_spec (Some 100) 0%nat 6%nat
                shakespeare_runner_spec _ Hrun)).
Defined.

Lemma tff_model_fn_wraps_what_it_just_built_witness :
  closures.tff_model_fn shakespeare_model_fn 0%nat
    = (Ok (VObj "tff_model"), 8%nat,
       calls (closures.tff_model_fn shakespeare_model_fn 0%nat)) /\
  exists keras_model loss metrics w1 w2 w3 metrics_calls,
    closures.call_model_builder
      (captured_model_builder shakespeare_model_fn) 0%nat
      = (Ok keras_model, w1,
         [model_call (captured_model_builder shakespeare_model_fn)]) /\
    closures.call_loss_builder
      (captured_loss_builder shakespeare_model_fn) w1
      = (Ok loss, w2,
         [loss_call (captured_loss_builder shakespeare_model_fn)]) /\
    closures.call_metrics_builder
      (captured_metrics_builder shakespeare_model_fn) w2
      = (Ok metrics, w3, metrics_calls) /\
    extern (tff_learning_from_keras_model
              keras_model (captured_input_spec shakespeare_model_fn)
              loss metrics) w3
      = (inr (VObj "tff_model"), 8%nat) /\
    calls (closures.tff_model_fn shakespeare_model_fn 0%nat)
      = model_call (captured_model_builder shakespeare_model_fn)
        :: loss_call (captured_loss_builder shakespeare_model_fn)
        :: metrics_calls
        ++ [tff_learning_from_keras_model
              keras_model (captured_input_spec shakespeare_model_fn)
              loss metrics] /\
    head (calls (closures.tff_model_fn shakespeare_model_fn 0%nat))
      = Some (model_call (captured_model_builder shakespeare_model_fn)) /\
    from_keras_model_args
      (calls (closures.tff_model_fn shakespeare_model_fn 0%nat))
      = [(keras_model, captured_input_spec shakespeare_model_fn, loss,
          metrics)] /\
    last (calls (closures.tff_model_fn shakespeare_model_fn 0%nat))
      = Some (tff_learning_from_keras_model
                keras_model (captured_input_spec shakespeare_model_fn)
                loss metrics) /\
    length metrics
      = metrics_count (captured_metrics_builder shakespeare_model_fn).
Proof.
  assert (Hrun :
    closures.tff_model_fn shakespeare_model_fn 0%nat
      = (Ok (VObj "tff_model"), 8%nat,
         calls (closures.tff_model_fn shakespeare_model_fn 0%nat)))
    by reflexivity.
  exact (conj Hrun
          (tff_model_fn_wraps_what_it_just_built
             shakespeare_model_fn 0%nat 8%nat (VObj "tff_model") _ Hrun)).
Defined.

Lemma metrics_builder_masks_the_padding_token_only_witness :
  federated_shakespeare.metrics_builder 0%nat
    = (Ok shakespeare_metrics, 5%nat,
       calls (federated_shakespeare.metrics_builder 0%nat)) /\
  exists pad_token oov bos eos w1,
    extern shakespeare_dataset_get_special_tokens 0%nat
      = (inr (pad_token, oov, bos, eos), w1) /\
    length shakespeare_metrics = 4%nat /\
    token_counter_args (calls (federated_shakespeare.metrics_builder 0%nat))
      = [[pad_token]] /\
    masked_accuracy_args (calls (federated_shakespeare.metrics_builder 0%nat))
      = token_counter_args (calls (federated_shakespeare.metrics_builder
          0%nat)) /\
    head (calls (federated_shakespeare.metrics_builder 0%nat))
      = Some shakespeare_dataset_get_special_tokens.
Proof.
  assert (Hrun :
    federated_shakespeare.metrics_builder 0%nat
      = (Ok shakespeare_metrics, 5%nat,
         calls (federated_shakespeare.metrics_builder 0%nat)))
    by reflexivity.
  exact (conj Hrun
          (metrics_builder_masks_the_padding_token_only
                0%nat 5%nat shakespeare_metrics _ Hrun)).
Defined.

(** An entry ['loss'] beside ['num_tokens'] changes nothing. *)
Lemma client_weight_fn_reads_num_tokens_only_witness :
  "loss" <> "num_tokens" /\
  federated_shakespeare.client_weight_fn
    local_outputs_two_entries
    = federated_shakespeare.client_weight_fn local_outputs /\
  federated_shakespeare.client_weight_fn (delete "loss" local_outputs)
    = federated_shakespeare.client_weight_fn local_outputs.
Proof.
  assert (Hkey : "loss" <> "num_tokens") by discriminate.
  pose proof (client_weight_fn_reads_num_tokens_only
                local_outputs "loss" (tf.Float32 [] [S754_zero false]) Hkey)
    as (Hinsert & Hdelete & _).
  exact (conj Hkey (conj Hinsert Hdelete)).
Defined.

Lemma client_weight_fn_returns_a_squeezed_float32_witness :
  local_outputs_rank_two !! "num_tokens"
    = Some (tf.Int64 [1%nat; 1%nat] [99]) /\
  exists r,
    federated_shakespeare.client_weight_fn local_outputs_rank_two = Ok r /\
    is_float32 r = true /\
    tensor_length r = tensor_length (tf.Int64 [1%nat; 1%nat] [99]) /\
    shape_size (tensor_shape r)
      = shape_size (tensor_shape (tf.Int64 [1%nat; 1%nat] [99])) /\
    (1%nat ∉ tensor_shape r) /\
    (Forall (fun d => d = 1%nat)
       (tensor_shape (tf.Int64 [1%nat; 1%nat] [99])) ->
     tensor_shape r = []) /\
    (is_float32 (tf.Int64 [1%nat; 1%nat] [99]) = true ->
     r = tf.squeeze (tf.Int64 [1%nat; 1%nat] [99])).
Proof.
  assert (Hlookup :
    local_outputs_rank_two !! "num_tokens"
      = Some (tf.Int64 [1%nat; 1%nat] [99]))
    by (vm_compute; reflexivity).
  exact (conj Hlookup
          (client_weight_fn_returns_a_squeezed_float32
                local_outputs_rank_two
                (tf.Int64 [1%nat; 1%nat] [99]) Hlookup)).
Defined.

Lemma client_weight_is_within_float32_precision_witness :
  local_outputs_large !! "num_tokens"
    = Some (tf.Int64 [1%nat] [16777217]) /\
  - 2 ^ 63 <= 16777217 < 2 ^ 63 /\
  exists f v,
    federated_shakespeare.client_weight_fn local_outputs_large
      = Ok (tf.Float32 [] [f]) /\
    tf.denotes f v = true /\
    2 ^ 24 * Z.abs (v - 16777217) <= Z.abs 16777217 /\
    (0 < 16777217 -> 0 < v) /\
    (16777217 = 0 -> v = 0).
Proof.
  assert (Hlookup :
    local_outputs_large !! "num_tokens"
      = Some (tf.Int64 [1%nat] [16777217]))
    by (vm_compute; reflexivity).
  assert (Hrange :
    - 2 ^ 63 <= 16777217 < 2 ^ 63)
    by lia.
  exact (conj Hlookup
          (conj Hrange
             (client_weight_is_within_float32_precision
                   local_outputs_large 16777217 Hlookup Hrange))).
Defined.

Lemma emnist_error_message_identifies_the_model_witness :
  "rnn" <> "lstm" /\
  federated_emnist.error_message "rnn"
    <> federated_emnist.error_message "lstm".
Proof.
  assert (Hne : "rnn" <> "lstm") by discriminate.
  exact (conj Hne
          (emnist_error_message_identifies_the_model "rnn" "lstm" Hne)).
Defined.

(** The validation function called with the model weights only. *)
Lemma validation_fn_needs_both_arguments_witness :
  (federated_emnist.configure_training task_spec None 0%nat
     = (Ok emnist_runner_spec, 8%nat,
        calls (federated_emnist.configure_training task_spec None 0%nat))
   \/ federated_shakespeare.configure_training task_spec None 0%nat
        = (Ok emnist_runner_spec, 8%nat,
           calls (federated_emnist.configure_training task_spec None 0%nat)))
               /\
  length [VObj "model_weights"] <> 2%nat /\
  exists message,
    call_value (validation_fn emnist_runner_spec) [VObj "model_weights"] 0%nat
      = (Raise (TypeError message), 0%nat, []).
Proof.
  assert (Hrun :
    federated_emnist.configure_training task_spec None 0%nat
      = (Ok emnist_runner_spec, 8%nat,
         calls (federated_emnist.configure_training task_spec None 0%nat))
    \/ federated_shakespeare.configure_training task_spec None 0%nat
         = (Ok emnist_runner_spec, 8%nat,
            calls (federated_emnist.configure_training task_spec None 0%nat)))
    by (left; reflexivity).
  assert (Hlen : length [VObj "model_weights"] <> 2%nat)
    by (simpl; lia).
  exact (conj Hrun
          (conj Hlen
             (validation_fn_needs_both_arguments task_spec None None
                0%nat 8%nat emnist_runner_spec _ [VObj "model_weights"] 0%nat
                Hrun Hlen))).
Defined.

(** The three ways in which the EMNIST configurator fails, here the value
    error. *)
Lemma emnist_failure_modes_witness :
  outcome (federated_emnist.configure_training task_spec (Some "rnn") 0%nat)
    = Raise (ValueError (federated_emnist.error_message "rnn")) /\
  ((exists e' c w0 w1,
       ValueError (federated_emnist.error_message "rnn") = External e' /\
       last (calls (federated_emnist.configure_training
                      task_spec (Some "rnn") 0%nat)) = Some c /\
       extern c w0 = (inl e', w1)) \/
   (ValueError (federated_emnist.error_message "rnn")
      = IndexError "list index out of range" /\
    exists train w0 w1,
      last (calls (federated_emnist.configure_training
                     task_spec (Some "rnn") 0%nat))
        = Some (ClientData_client_ids train) /\
      extern (ClientData_client_ids train) w0 = (inr [], w1)) \/
   (ValueError (federated_emnist.error_message "rnn")
      = ValueError (federated_emnist.error_message "rnn") /\
    "rnn" ∉ federated_emnist.EMNIST_MODELS)).
Proof.
  assert (Hrun :
    outcome (federated_emnist.configure_training task_spec (Some "rnn") 0%nat)
      = Raise (ValueError (federated_emnist.error_message "rnn")))
    by reflexivity.
  exact (conj Hrun
          (emnist_failure_modes task_spec (Some "rnn") 0%nat _ Hrun)).
Defined.

(** When the special tokens cannot be read, the model function stops at
    that call. *)
Lemma tff_model_fn_fails_only_where_a_collaborator_fails_witness :
  outcome (closures.tff_model_fn
             (H0 := collaborators_without_special_tokens)
             shakespeare_model_fn 0%nat)
    = Raise (External "special tokens not available") /\
  exists e' c w0 w1,
    External "special tokens not available" = External e' /\
    last (calls (closures.tff_model_fn
                   (H0 := collaborators_without_special_tokens)
                   shakespeare_model_fn 0%nat)) = Some c /\
    extern
      (Collaborators := collaborators_without_special_tokens)
      c w0 = (inl e', w1).
Proof.
  assert (Hrun :
    outcome (closures.tff_model_fn
               (H0 := collaborators_without_special_tokens)
               shakespeare_model_fn 0%nat)
      = Raise (External "special tokens not available"))
    by reflexivity.
  exact (conj Hrun
          (@tff_model_fn_fails_only_where_a_collaborator_fails
             runtime collaborators_without_special_tokens
             _ 0%nat _ Hrun)).
Defined.
